(** * Template-driven extraction engine: FileParser (file-parser.ts)

    A shallow embedding of [FileParser.applyTemplate], [applyPdfTemplate],
    [excelColToIndex], [convertDataType] and [parseExcel] of
    server/src/services/file-parser.ts, and the properties of the
    specification that concern them.

    JavaScript strings are represented by Rocq strings holding their UTF-8
    bytes; the Korean message texts of the source are kept byte for byte. *)

From Stdlib Require Import ZArith List String Ascii Bool Lia FinFun Sorted.
Import ListNotations.
Local Open Scope string_scope.
Local Open Scope Z_scope.

(** ** JavaScript values *)

Module JS.

(** A Number.  [Dec neg m e] is the IEEE-754 double nearest to
    [(-1)^neg * m * 10^e]; every finite double is such a decimal.  The engine
    tests numbers ([isNaN], truthiness); it computes with them in
    [excelColToIndex] only, on the integers of [Int] below. *)
Inductive Num :=
| NaN
| Infinity (neg : bool)
| Dec (neg : bool) (m : Z) (e : Z).

Definition isNaN (n : Num) : bool :=
  match n with NaN => true | _ => false end.

(** [m * 10^e] rounds to zero when it is at most half the least subnormal,
    2^-1075 (the tie goes to the even neighbour, zero). *)
Definition isZero (n : Num) : bool :=
  match n with
  | Dec _ m e =>
      (m =? 0) || ((e <? 0) && (m * 2 ^ 1075 <=? 10 ^ (- e)))
  | _ => false
  end.

(** The objects of the runtime that a property read can meet: the two
    prototypes, and the built-in functions, each by its [name]. *)
Inductive Builtin :=
| ObjectPrototype
| ArrayPrototype
| Function_ (name : string).

Inductive Value :=
| Undefined
| Null
| Boolean (b : bool)
| Number (n : Num)
| Str (s : string)
| Native (o : Builtin).

(** ToBoolean: what [v || w] and [!v] test. *)
Definition truthy (v : Value) : bool :=
  match v with
  | Undefined | Null => false
  | Boolean b => b
  | Number n => negb (isNaN n || isZero n)
  | Str s => negb (s =? "")%string
  | Native _ => true
  end.

(** [a || b] *)
Definition orElse (a b : Value) : Value := if truthy a then a else b.

Definition isNullish (v : Value) : bool :=
  match v with Undefined | Null => true | _ => false end.

(** *** Strings as code sequences *)

Definition codes (s : string) : list Z :=
  map (fun c => Z.of_nat (nat_of_ascii c)) (list_ascii_of_string s).

(** [s.charCodeAt(i)] for [0 <= i < s.length], on ASCII text. *)
Definition charCodeAt (s : string) (i : nat) : Z := nth i (codes s) 0.

Fixpoint dropPrefix (p l : list Z) : option (list Z) :=
  match p, l with
  | [], _ => Some l
  | a :: p', b :: l' => if a =? b then dropPrefix p' l' else None
  | _ :: _, [] => None
  end.

(** *** StringToNumber (ECMA-262, 7.1.4.1.1) *)

(** WhiteSpace and LineTerminator, in UTF-8: TAB LF VT FF CR SP, U+00A0,
    U+1680, U+2000..U+200A, U+2028, U+2029, U+202F, U+205F, U+3000, U+FEFF. *)
Definition whiteSpace : list (list Z) :=
  [ [9]; [10]; [11]; [12]; [13]; [32]; [194; 160]; [225; 154; 128];
    [226; 128; 128]; [226; 128; 129]; [226; 128; 130]; [226; 128; 131];
    [226; 128; 132]; [226; 128; 133]; [226; 128; 134]; [226; 128; 135];
    [226; 128; 136]; [226; 128; 137]; [226; 128; 138]; [226; 128; 168];
    [226; 128; 169]; [226; 128; 175]; [226; 129; 159]; [227; 128; 128];
    [239; 187; 191] ].

Fixpoint firstDrop (ps : list (list Z)) (l : list Z) : option (list Z) :=
  match ps with
  | [] => None
  | p :: ps' =>
      match dropPrefix p l with
      | Some r => Some r
      | None => firstDrop ps' l
      end
  end.

Fixpoint skipWhiteSpace (fuel : nat) (l : list Z) : list Z :=
  match fuel with
  | O => l
  | S k =>
      match firstDrop whiteSpace l with
      | Some r => skipWhiteSpace k r
      | None => l
      end
  end.

Definition digitVal (base c : Z) : option Z :=
  let v :=
    if (48 <=? c) && (c <=? 57) then c - 48
    else if (97 <=? c) && (c <=? 102) then c - 87
    else if (65 <=? c) && (c <=? 70) then c - 55
    else base in
  if v <? base then Some v else None.

(** The longest run of digits of the base at the head: its length, its
    value, and what follows. *)
Fixpoint spanDigits (base : Z) (n acc : Z) (l : list Z) : Z * Z * list Z :=
  match l with
  | c :: r =>
      match digitVal base c with
      | Some v => spanDigits base (n + 1) (acc * base + v) r
      | None => (n, acc, l)
      end
  | [] => (n, acc, l)
  end.

(** ExponentPart, when one is there: the exponent and what follows. *)
Definition exponentPart (l : list Z) : Z * list Z :=
  match l with
  | c :: r =>
      if (c =? 101) || (c =? 69) then
        let '(sgn, r1) :=
          match r with
          | 43 :: r' => (1, r')
          | 45 :: r' => (-1, r')
          | _ => (1, r)
          end in
        let '(n, v, r2) := spanDigits 10 0 0 r1 in
        if 0 <? n then (sgn * v, r2) else (0, l)
      else (0, l)
  | [] => (0, l)
  end.

(** StrUnsignedDecimalLiteral at the head. *)
Definition unsignedDecimal (neg : bool) (l : list Z) : option (Num * list Z) :=
  match dropPrefix (codes "Infinity") l with
  | Some r => Some (Infinity neg, r)
  | None =>
      let '(ni, vi, r1) := spanDigits 10 0 0 l in
      match r1 with
      | 46 :: r2 =>
          let '(nf, vf, r3) := spanDigits 10 0 vi r2 in
          if (ni =? 0) && (nf =? 0) then None
          else let '(e, r4) := exponentPart r3 in Some (Dec neg vf (e - nf), r4)
      | _ =>
          if ni =? 0 then None
          else let '(e, r4) := exponentPart r1 in Some (Dec neg vi e, r4)
      end
  end.

(** NonDecimalIntegerLiteral at the head: 0b, 0o, 0x in either case. *)
Definition nonDecimal (l : list Z) : option (Num * list Z) :=
  match l with
  | 48 :: c :: r =>
      let base :=
        if (c =? 98) || (c =? 66) then 2
        else if (c =? 111) || (c =? 79) then 8
        else if (c =? 120) || (c =? 88) then 16
        else 0 in
      let '(n, v, r') := spanDigits base 0 0 r in
      if 0 <? n then Some (Dec false v 0, r') else None
  | _ => None
  end.

Definition strNumericLiteral (l : list Z) : option (Num * list Z) :=
  match nonDecimal l with
  | Some res => Some res
  | None =>
      match l with
      | 43 :: r => unsignedDecimal false r
      | 45 :: r => unsignedDecimal true r
      | _ => unsignedDecimal false l
      end
  end.

Definition StringToNumber (s : string) : Num :=
  let l := skipWhiteSpace (String.length s) (codes s) in
  match l with
  | [] => Dec false 0 0
  | _ =>
      match strNumericLiteral l with
      | Some (n, r) =>
          match skipWhiteSpace (String.length s) r with
          | [] => n
          | _ => NaN
          end
      | None => NaN
      end
  end.

(** [Number(v)].  An object is converted through its string: the text of a
    function and [[object Object]] are no numerals, and [Array.prototype]
    prints as the empty string. *)
Definition ToNumber (v : Value) : Num :=
  match v with
  | Undefined => NaN
  | Null => Dec false 0 0
  | Boolean b => Dec false (if b then 1 else 0) 0
  | Number n => n
  | Str s => StringToNumber s
  | Native ArrayPrototype => Dec false 0 0
  | Native _ => NaN
  end.

(** *** Arithmetic on integers

    The numbers [excelColToIndex] computes are integers or an infinity.
    Every integer of magnitude below 2^53 is a double.  The result of an
    operation is the double nearest to the exact result: 53 significant
    bits, a tie going to the even significand, and an infinity when the
    rounded magnitude reaches 2^1024. *)
Inductive Int :=
| Finite (z : Z)
| Infinite (neg : bool).

Definition round (z : Z) : Int :=
  let a := Z.abs z in
  if a <? 2 ^ 53 then Finite z
  else
    let e := Z.log2 a - 52 in
    let q := a / 2 ^ e in
    let r := a mod 2 ^ e in
    let half := 2 ^ (e - 1) in
    let q' := if (half <? r) || ((r =? half) && Z.odd q) then q + 1 else q in
    let m := q' * 2 ^ e in
    if 2 ^ 1024 <=? m then Infinite (z <? 0)
    else Finite (if z <? 0 then - m else m).

(** [a * 26] *)
Definition times26 (a : Int) : Int :=
  match a with
  | Finite z => round (z * 26)
  | Infinite neg => Infinite neg
  end.

(** [a + k], and [a - k] as [a + (-k)], for an integer [k] *)
Definition plus (a : Int) (k : Z) : Int :=
  match a with
  | Finite z => round (z + k)
  | Infinite neg => Infinite neg
  end.

End JS.

(** ** Exceptions *)

(** What a [throw] carries.  [Error] is the engine's own [new Error(message)];
    the other two are raised by the runtime (a property read on [undefined],
    a call of something that is no function, an invalid regular expression)
    and their message text is the host's. *)
Inductive Exn :=
| Error (message : string)
| TypeError (what : string)
| SyntaxError (pattern : string).

Inductive Result (A : Type) :=
| Ok (a : A)
| Throw (e : Exn).
Arguments Ok {A} a.
Arguments Throw {A} e.

Definition bind {A B} (m : Result A) (k : A -> Result B) : Result B :=
  match m with
  | Ok a => k a
  | Throw e => Throw e
  end.

Notation "x <- m ;; k" := (bind m (fun x => k))
  (at level 61, m at next level, right associativity).

(** ** The host runtime

    The services of the JavaScript runtime that the engine calls and that are
    not modelled here: regular expressions, date parsing, the printing of
    numbers and of built-in functions, the members of [Array.prototype] and
    the message texts of runtime errors. *)
Record Host := {
  (** [new RegExp(pattern, 'i')] does not throw *)
  RegExp_compiles : string -> bool;
  (** [text.match(new RegExp(pattern, 'i'))]: [None] for [null], otherwise
      the element [1] of the match, [None] when it is [undefined] *)
  RegExp_match : string -> string -> option (option string);
  (** [new Date(v).toISOString()], [None] when [getTime()] is NaN *)
  Date_toISOString : JS.Value -> option string;
  (** Number::toString *)
  Number_toString : JS.Num -> string;
  (** [String(f)] for a built-in function, by its name *)
  Function_toString : string -> string;
  (** the name is that of a member of [Array.prototype], [length] apart *)
  Array_member : string -> bool;
  (** the [message] of an error raised by the runtime *)
  runtime_message : Exn -> string
}.

(** ** Objects and rows *)

(** The own properties of a plain object, the prototype of which is
    [Object.prototype].  The objects that the engine builds have them in the
    order in which JavaScript enumerates them: the array indexes in
    ascending order, then the other keys in the order of their creation. *)
Definition Obj := list (string * JS.Value).

Fixpoint getProp {A} (o : list (string * A)) (k : string) : option A :=
  match o with
  | [] => None
  | (k', v) :: o' => if (k' =? k)%string then Some v else getProp o' k
  end.

(** What every plain object inherits from [Object.prototype]: eleven
    functions, and the accessor [__proto__], which reads as the prototype
    itself. *)
Definition Object_prototype : list (string * JS.Value) :=
  [ ("constructor", JS.Native (JS.Function_ "Object"));
    ("__defineGetter__", JS.Native (JS.Function_ "__defineGetter__"));
    ("__defineSetter__", JS.Native (JS.Function_ "__defineSetter__"));
    ("hasOwnProperty", JS.Native (JS.Function_ "hasOwnProperty"));
    ("__lookupGetter__", JS.Native (JS.Function_ "__lookupGetter__"));
    ("__lookupSetter__", JS.Native (JS.Function_ "__lookupSetter__"));
    ("isPrototypeOf", JS.Native (JS.Function_ "isPrototypeOf"));
    ("propertyIsEnumerable", JS.Native (JS.Function_ "propertyIsEnumerable"));
    ("toString", JS.Native (JS.Function_ "toString"));
    ("valueOf", JS.Native (JS.Function_ "valueOf"));
    ("__proto__", JS.Native JS.ObjectPrototype);
    ("toLocaleString", JS.Native (JS.Function_ "toLocaleString")) ].

(** [o[k]]: the own property, or else the inherited one. *)
Definition get (o : Obj) (k : string) : JS.Value :=
  match getProp o k with
  | Some v => v
  | None =>
      match getProp Object_prototype k with
      | Some member => member
      | None => JS.Undefined
      end
  end.

(** [a.push(x)] *)
Definition push {A} (a : list A) (x : A) : list A := (a ++ [x])%list.

(** A row of a parsed file: an array of cells (spreadsheet) or a record
    keyed by header (delimited text, extracted text). *)
Inductive Row :=
| RowArray (cells : list JS.Value)
| RowRecord (fields : Obj).

Definition ofInt (z : Z) : JS.Num := JS.Dec (z <? 0) (Z.abs z) 0.

Definition numberOf (i : JS.Int) : JS.Num :=
  match i with
  | JS.Finite z => ofInt z
  | JS.Infinite neg => JS.Infinity neg
  end.

(** An array index: a decimal numeral without leading zero, below 2^32 - 1. *)
Definition arrayIndex (k : string) : option Z :=
  match JS.codes k with
  | [] => None
  | c :: r =>
      let '(n, v, rest) := JS.spanDigits 10 0 0 (c :: r) in
      match rest with
      | [] =>
          if ((negb (c =? 48)) || (n =? 1)) && (v <? 4294967295)
          then Some v else None
      | _ => None
      end
  end.

(** *** Assignment to a property *)

(** The value of an own property that is there already is replaced where
    it stands. *)
Fixpoint update (o : Obj) (k : string) (v : JS.Value) : Obj :=
  match o with
  | [] => []
  | (k', v') :: o' =>
      if (k' =? k)%string then (k', v) :: o' else (k', v') :: update o' k v
  end.

(** A new array index [i] takes its place among the array indexes. *)
Fixpoint insertIndex (o : Obj) (i : Z) (k : string) (v : JS.Value) : Obj :=
  match o with
  | [] => [(k, v)]
  | (k', v') :: o' =>
      match arrayIndex k' with
      | Some j =>
          if j <? i then (k', v') :: insertIndex o' i k v
          else (k, v) :: (k', v') :: o'
      | None => (k, v) :: (k', v') :: o'
      end
  end.

(** The own property [k] is set to [v]: replaced, or created, an array index
    among the array indexes and any other key after all the others. *)
Definition setProp (o : Obj) (k : string) (v : JS.Value) : Obj :=
  match getProp o k with
  | Some _ => update o k v
  | None =>
      match arrayIndex k with
      | Some i => insertIndex o i k v
      | None => (o ++ [(k, v)])%list
      end
  end.

(** An object made by [{}] and filled by assignments: its own properties,
    and whether its prototype has been set to [null]. *)
Record PlainObject := {
  own : Obj;
  nullProto : bool
}.

Definition emptyObject : PlainObject := {| own := []; nullProto := false |}.

(** [o[k] = v].  The name [__proto__] is an accessor of [Object.prototype]:
    as long as the object inherits it and has no own property of that name,
    the assignment creates no property.  It sets the prototype, to [null]
    when [v] is [null] and to an object when [v] is one (every object here
    inherits the accessor in turn), and does nothing for any other [v]. *)
Definition assign (o : PlainObject) (k : string) (v : JS.Value) : PlainObject :=
  if (k =? "__proto__")%string && negb (nullProto o)
     && match getProp (own o) k with Some _ => false | None => true end
  then {| own := own o;
          nullProto := match v with JS.Null => true | _ => false end |}
  else {| own := setProp (own o) k v; nullProto := nullProto o |}.

Inductive FileType := excel | csv | pdf.

Definition FileType_eqb (a b : FileType) : bool :=
  match a, b with
  | excel, excel | csv, csv | pdf, pdf => true
  | _, _ => false
  end.

Module Metadata.
Record t := {
  totalRows : Z;
  type : FileType;
  sheetName : option string;
  filename : string
}.
End Metadata.

Module ParsedFileData.
Record t := {
  headers : option (list JS.Value);
  rows : list Row;
  metadata : Metadata.t
}.
End ParsedFileData.

Module Column.
Record t := {
  name : string;
  sourceColumn : string;
  required : bool;
  dataType : string
}.
End Column.

(** [skipRows] is a number of the template's JSON; it is an integer here,
    of either sign. *)
Module TemplateMappingData.
Record t := {
  fileType : FileType;
  skipRows : Z;
  columns : list Column.t;
  (** [pdfSettings?.patterns] *)
  pdfSettings : option (list (string * string))
}.
End TemplateMappingData.

Module RowError.
Record t := { row : Z; message : string }.
End RowError.

Module MappingResult.
Record t := {
  headers : list string;
  rows : list Obj;
  totalRows : Z;
  mappedRows : Z;
  errorRows : Z;
  errors : list RowError.t
}.
End MappingResult.

(** ** Strings and keys: what the parsers use *)

(** [s.includes(needle)] *)
Fixpoint includes (s needle : string) : bool :=
  String.prefix needle s
  || match s with
     | EmptyString => false
     | String _ s' => includes s' needle
     end.

(** [a.join(sep)] for an array of strings *)
Fixpoint join (sep : string) (a : list string) : string :=
  match a with
  | [] => ""
  | x :: rest =>
      match rest with
      | [] => x
      | _ :: _ => x ++ sep ++ join sep rest
      end
  end.

(** [s.trim().length > 0] fails: the string is white space throughout. *)
Definition isBlank (s : string) : bool :=
  match JS.skipWhiteSpace (String.length s) (JS.codes s) with
  | [] => true
  | _ :: _ => false
  end.

Fixpoint insertKey (k : Z * string) (l : list (Z * string))
  : list (Z * string) :=
  match l with
  | [] => [k]
  | h :: t => if fst k <? fst h then k :: h :: t else h :: insertKey k t
  end.

(** [Object.keys(o)]: the array indexes in ascending order, then the other
    keys in the order of their creation. *)
Definition Object_keys (o : Obj) : list string :=
  (map snd
     (fold_right insertKey []
        (flat_map
           (fun kv =>
              match arrayIndex (fst kv) with
              | Some i => [(i, fst kv)]
              | None => []
              end) o))
   ++ map fst
        (filter
           (fun kv =>
              match arrayIndex (fst kv) with
              | Some _ => false
              | None => true
              end) o))%list.

(** The files and the libraries that read them, as [parseFile] sees them:
    [fs.existsSync], [path.basename], and what the three readers return or
    throw for a path. *)
Record FileSystem := {
  existsSync : string -> bool;
  basename : string -> string;
  (** [XLSX.readFile] with the grids of its sheets *)
  readWorkbook : string -> Result (list (string * list (list JS.Value)));
  (** [fs.readFileSync] and csv-parse with [columns], [skip_empty_lines]
      and [trim]: the records *)
  readRecords : string -> Result (list Obj);
  (** [PDFExtract.extract]: for each page, the [str] of its items *)
  extractPages : string -> Result (list (list string))
}.

(** ** class FileParser *)

Module FileParser.

Import Column TemplateMappingData.

(** The grid of a worksheet as [XLSX.utils.sheet_to_json(ws, { header: 1 })]
    gives it, and a workbook as the ordered list of its sheets by name. *)
Definition Grid := list (list JS.Value).
Definition Workbook := list (string * Grid).

(** [parseExcel], from the workbook that [XLSX.readFile] returned. *)
Definition parseExcel (workbook : Workbook) (filename : string)
  : ParsedFileData.t :=
  let sheetName := option_map fst (hd_error workbook) in
  let jsonData := match workbook with (_, g) :: _ => g | [] => [] end in
  let headers := hd_error jsonData in
  let rows := tl jsonData in
  {| ParsedFileData.headers := headers;
     ParsedFileData.rows := map RowArray rows;
     ParsedFileData.metadata :=
       {| Metadata.totalRows := Z.of_nat (List.length rows);
          Metadata.type := excel;
          Metadata.sheetName := sheetName;
          Metadata.filename := filename |} |}.

(** [excelColToIndex]: the loop [for (let i = 0; i < col.length; i++)], then
    [result - 1], each operation rounded as the arithmetic of Numbers
    rounds it. *)
Definition excelColToIndex (col : string) : JS.Int :=
  JS.plus
    (fold_left
       (fun result i =>
          JS.plus (JS.plus (JS.times26 result) (JS.charCodeAt col i)) (- 64))
       (seq 0 (String.length col)) (JS.Finite 0))
    (- 1).

(** [parseCsv], from the records that csv-parse returned. *)
Definition parseCsv (records : list Obj) (filename : string)
  : ParsedFileData.t :=
  let headers :=
    match records with
    | first :: _ => map JS.Str (Object_keys first)
    | [] => []
    end in
  {| ParsedFileData.headers := Some headers;
     ParsedFileData.rows := map RowRecord records;
     ParsedFileData.metadata :=
       {| Metadata.totalRows := Z.of_nat (List.length records);
          Metadata.type := csv;
          Metadata.sheetName := None;
          Metadata.filename := filename |} |}.

(** The text of the pages: the items that are not blank, joined by a space
    within a page, the pages joined by a line feed. *)
Definition textContent (pages : list (list string)) : string :=
  join (String (ascii_of_nat 10) "")
    (map (fun page => join " " (filter (fun str => negb (isBlank str)) page))
       pages).

(** [parsePdf], from the pages that the extractor returned. *)
Definition parsePdf (pages : list (list string)) (filename : string)
  : ParsedFileData.t :=
  {| ParsedFileData.headers := Some [JS.Str "content"];
     ParsedFileData.rows :=
       [RowRecord [("content", JS.Str (textContent pages))]];
     ParsedFileData.metadata :=
       {| Metadata.totalRows := 1;
          Metadata.type := pdf;
          Metadata.sheetName := None;
          Metadata.filename := filename |} |}.

Section WithHost.

Context (host : Host).

Definition message (e : Exn) : string :=
  match e with
  | Error m => m
  | _ => runtime_message host e
  end.

(** [String(v)] and [`${v}`] *)
Definition ToString (v : JS.Value) : string :=
  match v with
  | JS.Undefined => "undefined"
  | JS.Null => "null"
  | JS.Boolean b => if b then "true" else "false"
  | JS.Number n => Number_toString host n
  | JS.Str s => s
  | JS.Native JS.ObjectPrototype => "[object Object]"
  | JS.Native JS.ArrayPrototype => ""
  | JS.Native (JS.Function_ name) => Function_toString host name
  end.

(** [row[i]] for a number [i] that is an integer or an infinity *)
Definition getIndex (r : Row) (i : JS.Int) : JS.Value :=
  match r with
  | RowArray cells =>
      match i with
      | JS.Finite z =>
          if z <? 0 then JS.Undefined else nth (Z.to_nat z) cells JS.Undefined
      | JS.Infinite _ => JS.Undefined
      end
  | RowRecord fields => get fields (Number_toString host (numberOf i))
  end.

(** [row[k]] for a string [k].  An array has its elements and [length]; it
    inherits from [Array.prototype], which [__proto__] reads, and through
    it from [Object.prototype]. *)
Definition getNamed (r : Row) (k : string) : JS.Value :=
  match r with
  | RowRecord fields => get fields k
  | RowArray cells =>
      match arrayIndex k with
      | Some i => nth (Z.to_nat i) cells JS.Undefined
      | None =>
          if (k =? "length")%string
          then JS.Number (ofInt (Z.of_nat (List.length cells)))
          else if (k =? "__proto__")%string
          then JS.Native JS.ArrayPrototype
          else if Array_member host k
          then JS.Native
                 (JS.Function_
                    (if (k =? "constructor")%string then "Array" else k))
          else get [] k
      end
  end.

Definition convertDataType (value : JS.Value) (dataType : string)
  : Result JS.Value :=
  if JS.isNullish value then Ok JS.Null
  else if (dataType =? "number")%string then
    let num := JS.ToNumber value in
    if JS.isNaN num
    then Throw (Error ("'" ++ ToString value ++ "'은(는) 유효한 숫자가 아닙니다."))
    else Ok (JS.Number num)
  else if (dataType =? "date")%string then
    match Date_toISOString host value with
    | None => Throw (Error ("'" ++ ToString value ++ "'은(는) 유효한 날짜가 아닙니다."))
    | Some iso => Ok (JS.Str iso)
    end
  else Ok (JS.Str (ToString value)).

(** *** The tabular path *)

(** The value a column mapping reads from a row. *)
Definition sourceValue (ty : FileType) (sourceRow : Row) (mapping : Column.t)
  : JS.Value :=
  match ty with
  | excel => getIndex sourceRow (excelColToIndex (sourceColumn mapping))
  | _ => JS.orElse (getNamed sourceRow (sourceColumn mapping)) JS.Null
  end.

(** The variables the body of the inner loop updates: [mappedRow],
    [hasError] and the array [errors] shared by all rows. *)
Record RowState := {
  mappedRow : PlainObject;
  errors : list RowError.t;
  hasError : bool
}.

Definition pushError (st : RowState) (row : Z) (msg : string) : RowState :=
  {| mappedRow := mappedRow st;
     errors := push (errors st) {| RowError.row := row; RowError.message := msg |};
     hasError := true |}.

(** One turn of [for (const mapping of columnMappings)] for row [i]. *)
Definition mapColumn (ty : FileType) (i : Z) (sourceRow : option Row)
    (st : RowState) (mapping : Column.t) : Result RowState :=
  match sourceRow with
  | None => Throw (TypeError "sourceRow")
  | Some r =>
      let value := sourceValue ty r mapping in
      let st1 :=
        if required mapping && JS.isNullish value
        then pushError st (i + 1)
               ("필수 필드 '" ++ name mapping ++ "'의 값이 없습니다.")
        else st in
      match convertDataType value (dataType mapping) with
      | Ok v =>
          Ok {| mappedRow := assign (mappedRow st1) (name mapping) v;
                errors := errors st1;
                hasError := hasError st1 |}
      | Throw error =>
          Ok (pushError st1 (i + 1)
                ("필드 '" ++ name mapping ++ "'의 데이터 타입 변환 오류: "
                 ++ message error))
      end
  end.

Fixpoint mapColumns (ty : FileType) (i : Z) (sourceRow : option Row)
    (columnMappings : list Column.t) (st : RowState) : Result RowState :=
  match columnMappings with
  | [] => Ok st
  | mapping :: rest =>
      st' <- mapColumn ty i sourceRow st mapping ;;
      mapColumns ty i sourceRow rest st'
  end.

(** [sourceData[i]] *)
Definition rowAt (sourceData : list Row) (i : Z) : option Row :=
  if i <? 0 then None else nth_error sourceData (Z.to_nat i).

(** The body of [for (let i = skipRows; i < sourceData.length; i++)]. *)
Definition mapRow (ty : FileType) (sourceData : list Row)
    (columnMappings : list Column.t)
    (acc : list Obj * list RowError.t) (i : Z)
  : Result (list Obj * list RowError.t) :=
  let '(mappedRows, errs) := acc in
  st <- mapColumns ty i (rowAt sourceData i) columnMappings
          {| mappedRow := emptyObject; errors := errs; hasError := false |} ;;
  Ok (if hasError st then mappedRows else push mappedRows (own (mappedRow st)),
      errors st).

Fixpoint mapRows (ty : FileType) (sourceData : list Row)
    (columnMappings : list Column.t) (indexes : list Z)
    (acc : list Obj * list RowError.t)
  : Result (list Obj * list RowError.t) :=
  match indexes with
  | [] => Ok acc
  | i :: rest =>
      acc' <- mapRow ty sourceData columnMappings acc i ;;
      mapRows ty sourceData columnMappings rest acc'
  end.

(** The values [i] takes: [skipRows], [skipRows + 1], ... below [len]. *)
Definition indexes (skipRows len : Z) : list Z :=
  map (fun k => skipRows + Z.of_nat k) (seq 0 (Z.to_nat (len - skipRows))).

Definition applyTabular (fileData : ParsedFileData.t)
    (template : TemplateMappingData.t) : Result MappingResult.t :=
  let sourceData := ParsedFileData.rows fileData in
  let skipRows := if skipRows template =? 0 then 0 else skipRows template in
  let columnMappings := columns template in
  let resultHeaders := map name columnMappings in
  let len := Z.of_nat (List.length sourceData) in
  res <- mapRows (Metadata.type (ParsedFileData.metadata fileData))
           sourceData columnMappings (indexes skipRows len) ([], []) ;;
  let '(mappedRows, errs) := res in
  Ok {| MappingResult.headers := resultHeaders;
        MappingResult.rows := mappedRows;
        MappingResult.totalRows := len - skipRows;
        MappingResult.mappedRows := Z.of_nat (List.length mappedRows);
        MappingResult.errorRows := Z.of_nat (List.length errs);
        MappingResult.errors := errs |}.

(** *** The free-text path *)

(** One turn of [for (const mapping of template.columns)]. *)
Definition applyPattern (template : TemplateMappingData.t)
    (pdfContent : JS.Value) (st : PlainObject * list RowError.t)
    (mapping : Column.t)
  : Result (PlainObject * list RowError.t) :=
  let '(mappedRow, errs) := st in
  let err msg := {| RowError.row := 1; RowError.message := msg |} in
  let pattern :=
    match pdfSettings template with
    | Some patterns => getProp patterns (name mapping)
    | None => None
    end in
  match pattern with
  | None | Some "" =>
      Ok (mappedRow,
          if required mapping
          then push errs (err ("필수 필드 '" ++ name mapping
                               ++ "'의 패턴이 정의되지 않았습니다."))
          else errs)
  | Some pattern =>
      if negb (RegExp_compiles host pattern) then Throw (SyntaxError pattern)
      else
        match pdfContent with
        | JS.Str text =>
            match RegExp_match host pattern text with
            | Some (Some (String c g)) =>
                v <- convertDataType (JS.Str (String c g)) (dataType mapping) ;;
                Ok (assign mappedRow (name mapping) v, errs)
            | _ =>
                Ok (mappedRow,
                    if required mapping
                    then push errs (err ("필수 필드 '" ++ name mapping
                                         ++ "'의 값을 찾을 수 없습니다."))
                    else errs)
            end
        | _ => Throw (TypeError "pdfContent.match")
        end
  end.

Fixpoint applyPatterns (template : TemplateMappingData.t)
    (pdfContent : JS.Value) (cols : list Column.t)
    (st : PlainObject * list RowError.t)
  : Result (PlainObject * list RowError.t) :=
  match cols with
  | [] => Ok st
  | mapping :: rest =>
      st' <- applyPattern template pdfContent st mapping ;;
      applyPatterns template pdfContent rest st'
  end.

Definition applyPdfTemplate (fileData : ParsedFileData.t)
    (template : TemplateMappingData.t) : Result MappingResult.t :=
  let pdfContent :=
    JS.orElse
      match ParsedFileData.rows fileData with
      | r :: _ => getNamed r "content"
      | [] => JS.Undefined
      end
      (JS.Str "") in
  st <- applyPatterns template pdfContent (columns template)
          (emptyObject, []) ;;
  let '(mappedRow, errs) := st in
  let resultHeaders := map name (columns template) in
  let hasErrors := 0 <? Z.of_nat (List.length errs) in
  Ok {| MappingResult.headers := resultHeaders;
        MappingResult.rows := if hasErrors then [] else [own mappedRow];
        MappingResult.totalRows := 1;
        MappingResult.mappedRows := if hasErrors then 0 else 1;
        MappingResult.errorRows := Z.of_nat (List.length errs);
        MappingResult.errors := errs |}.

(** *** applyTemplate *)

(** The path taken: free text only when both the template and the file say
    [pdf]. *)
Definition isPdfPath (fileData : ParsedFileData.t)
    (template : TemplateMappingData.t) : bool :=
  FileType_eqb (fileType template) pdf
  && FileType_eqb (Metadata.type (ParsedFileData.metadata fileData)) pdf.

Definition applyTemplate (fileData : ParsedFileData.t)
    (template : TemplateMappingData.t) : Result MappingResult.t :=
  match
    if isPdfPath fileData template
    then applyPdfTemplate fileData template
    else applyTabular fileData template
  with
  | Ok r => Ok r
  | Throw error => Throw (Error ("템플릿 적용 오류: " ++ message error))
  end.

(** *** parseFile *)

Definition parseFile (files : FileSystem) (filePath fileType : string)
  : Result ParsedFileData.t :=
  match
    if negb (existsSync files filePath)
    then Throw (Error ("파일을 찾을 수 없습니다: " ++ filePath))
    else
      let filename := basename files filePath in
      if includes fileType "excel" || includes fileType "spreadsheet"
         || includes fileType "xlsx" || includes fileType "xls"
      then workbook <- readWorkbook files filePath ;;
           Ok (parseExcel workbook filename)
      else if includes fileType "csv"
      then records <- readRecords files filePath ;;
           Ok (parseCsv records filename)
      else if includes fileType "pdf"
      then pages <- extractPages files filePath ;;
           Ok (parsePdf pages filename)
      else Throw (Error ("지원하지 않는 파일 형식입니다: " ++ fileType))
  with
  | Ok fileData => Ok fileData
  | Throw error => Throw (Error ("파일 파싱 오류: " ++ message error))
  end.

End WithHost.

End FileParser.

(** ** file-processor: applyTemplateMapping *)

Module FileProcessor.

(** What [extractDataFromFile] hands over: the grid of a sheet, or the text
    of a PDF, here as the sequence of its characters, each a string. *)
Inductive FileData :=
| Sheet (grid : list (list JS.Value))
| Text (chars : list string).

(** An entry of the mapping, by what the loop tests of it: an object with
    the keys [row] and [col] (integers, as the source documents them), an
    object with the key [selector] that lacks one of the former, an object
    with none of these, and a value that is no object, on which [in]
    throws. *)
Inductive MapInfo :=
| CellAt (row col : Z)
| Selector (selector : string)
| Neither
| NoObject.

Definition at_ {A} (l : list A) (i : Z) : option A :=
  if i <? 0 then None else nth_error l (Z.to_nat i).

(** [data[row][col]], with [undefined] when [data[row]] is. *)
Definition cell (data : FileData) (row col : Z) : JS.Value :=
  match data with
  | Sheet grid =>
      match at_ grid row with
      | Some cells =>
          match at_ cells col with
          | Some v => v
          | None => JS.Undefined
          end
      | None => JS.Undefined
      end
  | Text chars =>
      match at_ chars row with
      | Some ch => if col =? 0 then JS.Str ch else JS.Undefined
      | None => JS.Undefined
      end
  end.

(** One turn of [for (const [field, mapInfo] of Object.entries(mapping))]. *)
Definition mapField (data : FileData) (result : PlainObject)
    (entry : string * MapInfo) : PlainObject :=
  let '(field, mapInfo) := entry in
  match mapInfo with
  | CellAt row col =>
      match cell data row col with
      | JS.Undefined => result
      | v => assign result field v
      end
  | Selector _ =>
      match data with
      | Text _ => assign result field (JS.Str "")
      | Sheet _ => result
      end
  | Neither => result
  | NoObject => assign result field JS.Null
  end.

(** [applyTemplateMapping], from the entries of the parsed mapping. *)
Definition applyTemplateMapping (data : FileData)
    (entries : list (string * MapInfo)) : PlainObject :=
  fold_left (mapField data) entries emptyObject.

End FileProcessor.

(** ** Column names and their order *)

(** The codes of the letters A..Z. *)
Definition upperCodes (l : list Z) : bool :=
  forallb (fun c => (65 <=? c) && (c <=? 90)) l.

(** A column name: a non-empty string of the letters A..Z. *)
Definition isColumnName (s : string) : bool :=
  negb (s =? "")%string && upperCodes (JS.codes s).

Fixpoint lexLt (l l' : list Z) : bool :=
  match l, l' with
  | a :: r, b :: r' => (a <? b) || ((a =? b) && lexLt r r')
  | [], _ :: _ => true
  | _, [] => false
  end.

(** The order of spreadsheet columns: shorter names first, alphabetical
    within a length. *)
Definition columnLt (s t : string) : bool :=
  let l := JS.codes s in
  let l' := JS.codes t in
  (List.length l <? List.length l')%nat
  || ((List.length l =? List.length l')%nat && lexLt l l').

(** The string with the given codes. *)
Definition ofCodes (l : list Z) : string :=
  string_of_list_ascii (map (fun c => ascii_of_nat (Z.to_nat c)) l).

(** The value of [result] after the loop of [excelColToIndex] has read the
    codes [l], started from [a], in exact arithmetic. *)
Definition colValue (a : Z) (l : list Z) : Z :=
  fold_left (fun result c => result * 26 + c - 64) l a.

(** The same, as the source computes it: every operation rounded. *)
Definition colRounded (a : JS.Int) (l : list Z) : JS.Int :=
  fold_left
    (fun result c => JS.plus (JS.plus (JS.times26 result) c) (- 64)) l a.

(** 1 + 26 + ... + 26^(n-1): the value of the first name of length n. *)
Fixpoint ones (n : nat) : Z :=
  match n with
  | O => 0
  | S k => 26 * ones k + 1
  end.

(** * Notions used to state the properties *)

Section Notions.

Import FileParser Column TemplateMappingData.

(** The state of the inner loop with [errs] put in front of its errors. *)
Definition prepend (errs : list RowError.t) (st : RowState) : RowState :=
  {| mappedRow := mappedRow st;
     errors := errs ++ errors st;
     hasError := hasError st |}.

Definition mapResult {A B} (f : A -> B) (m : Result A) : Result B :=
  match m with
  | Ok a => Ok (f a)
  | Throw e => Throw e
  end.

(** A fresh [mappedRow] and [hasError], and no error yet. *)
Definition freshRow : RowState :=
  {| mappedRow := emptyObject; errors := []; hasError := false |}.

(** What the inner loop does for row [i], taken on its own. *)
Definition rowOutcome (host : Host) (fileData : ParsedFileData.t)
    (template : TemplateMappingData.t) (i : Z) : Result RowState :=
  mapColumns host (Metadata.type (ParsedFileData.metadata fileData)) i
    (rowAt (ParsedFileData.rows fileData) i) (columns template) freshRow.

(** The records a finished row adds to [mappedRows]. *)
Definition contribution (st : RowState) : list Obj :=
  match errors st with
  | [] => [own (mappedRow st)]
  | _ :: _ => []
  end.

(** The entries of [errors] that carry a given row number. *)
Definition errorsOfRow (r : MappingResult.t) (rowNumber : Z)
  : list RowError.t :=
  filter (fun e => RowError.row e =? rowNumber) (MappingResult.errors r).


(** The record has a field for the column, unless the column is named
    [__proto__], a name under which an assignment may store nothing. *)
Definition hasField (record : Obj) (c : Column.t) : Prop :=
  name c <> "__proto__" -> getProp record (name c) <> None.

(** What holds of the inner loop's variables while row [i] is mapped:
    [hasError] is set exactly when the row has pushed an error, every error
    of the row carries the number [i + 1], and, as long as no error was
    pushed, every column read so far has its field in [mappedRow]. *)
Definition rowInv (i : Z) (done : list Column.t) (st : RowState) : Prop :=
  (hasError st = true <-> errors st <> [])
  /\ Forall (fun e => RowError.row e = i + 1) (errors st)
  /\ (hasError st = false -> Forall (hasField (own (mappedRow st))) done).

(** The errors of an outcome carry its row's number. *)
Definition numbered (i : Z) (st : RowState) : Prop :=
  Forall (fun e => RowError.row e = i + 1) (errors st).

(** The row pushed an error. *)
Definition failed (st : RowState) : bool :=
  match errors st with [] => false | _ :: _ => true end.

(** Row [i] of the tabular path gives [recs] to [mappedRows]: its one
    record, with a field for every column (one named [__proto__] apart),
    when [errors] has no entry for the row, and nothing when it has one. *)
Definition allOrNothing (host : Host) (fileData : ParsedFileData.t)
    (template : TemplateMappingData.t) (r : MappingResult.t)
    (i : Z) (recs : list Obj) : Prop :=
  exists st,
    rowOutcome host fileData template i = Ok st
    /\ errorsOfRow r (i + 1) = errors st
    /\ ((errorsOfRow r (i + 1) = []
         /\ recs = [own (mappedRow st)]
         /\ Forall (hasField (own (mappedRow st))) (columns template))
        \/ (errorsOfRow r (i + 1) <> [] /\ recs = [])).

(** The template with another [fileType]. *)
Definition withFileType (template : TemplateMappingData.t) (k : FileType)
  : TemplateMappingData.t :=
  {| fileType := k;
     skipRows := skipRows template;
     columns := columns template;
     pdfSettings := pdfSettings template |}.

(** What the [catch] of [applyTemplate] makes of a result. *)
Definition rethrown (host : Host) (m : Result MappingResult.t)
  : Result MappingResult.t :=
  match m with
  | Ok r => Ok r
  | Throw error => Throw (Error ("템플릿 적용 오류: " ++ message host error)%string)
  end.

End Notions.



(** ** Scenarios *)

Module Scenario.

Import FileParser.

(** A host for the scenarios.  It tabulates the regular-expression results
    the scenarios ask for, prints a function as V8 does and knows the
    members of [Array.prototype] of ECMAScript 2023; no scenario prints a
    number, parses a date or raises a runtime error, so those answers are
    never consulted. *)
Definition host : Host :=
  {| RegExp_compiles := fun _ => true;
     RegExp_match := fun pattern text =>
       if ((pattern =? "Total:\s*(\w+)") && (text =? "Total: abc"))%string
       then Some (Some "abc")
       else if ((pattern =? "Total:\s*(\d+)")
                && (text =? "Invoice 17 Total: 4200 EUR"))%string
       then Some (Some "4200")
       else None;
     Date_toISOString := fun _ => None;
     Number_toString := fun _ => "";
     Function_toString := fun name =>
       "function " ++ name ++ "() { [native code] }";
     Array_member := fun k =>
       existsb (String.eqb k)
         [ "at"; "concat"; "constructor"; "copyWithin"; "entries"; "every";
           "fill"; "filter"; "find"; "findIndex"; "findLast";
           "findLastIndex"; "flat"; "flatMap"; "forEach"; "includes";
           "indexOf"; "join"; "keys"; "lastIndexOf"; "map"; "pop"; "push";
           "reduce"; "reduceRight"; "reverse"; "shift"; "slice"; "some";
           "sort"; "splice"; "toLocaleString"; "toReversed"; "toSorted";
           "toSpliced"; "toString"; "unshift"; "values"; "with" ];
     runtime_message := fun _ => "" |}.

Definition column (name sourceColumn : string) (required : bool)
    (dataType : string) : Column.t :=
  {| Column.name := name; Column.sourceColumn := sourceColumn;
     Column.required := required; Column.dataType := dataType |}.

Definition file (type : FileType) (rows : list Row) : ParsedFileData.t :=
  {| ParsedFileData.headers := None;
     ParsedFileData.rows := rows;
     ParsedFileData.metadata :=
       {| Metadata.totalRows := Z.of_nat (List.length rows);
          Metadata.type := type;
          Metadata.sheetName := None;
          Metadata.filename := "quotes" |} |}.

(** A delimited-text file of two records; the second has an empty [item]
    and the text abc for [qty]. *)
Definition quotesCsv : ParsedFileData.t :=
  file csv
    [ RowRecord [("item", JS.Str "bolt"); ("qty", JS.Str "12")];
      RowRecord [("item", JS.Str ""); ("qty", JS.Str "abc")] ].

Definition quotesColumns : list Column.t :=
  [ column "item" "item" true "string"; column "qty" "qty" false "number" ].

Definition quotesTemplate (fileType : FileType) (skipRows : Z)
  : TemplateMappingData.t :=
  {| TemplateMappingData.fileType := fileType;
     TemplateMappingData.skipRows := skipRows;
     TemplateMappingData.columns := quotesColumns;
     TemplateMappingData.pdfSettings := None |}.

Definition itemMissing : string := "필수 필드 'item'의 값이 없습니다.".
Definition qtyNotNumber : string :=
  "필드 'qty'의 데이터 타입 변환 오류: 'abc'은(는) 유효한 숫자가 아닙니다.".

(** What [applyTemplate] returns for [quotesCsv]: the first record mapped,
    two errors for the second. *)
Definition quotesResult : MappingResult.t :=
  {| MappingResult.headers := ["item"; "qty"];
     MappingResult.rows :=
       [ [("item", JS.Str "bolt"); ("qty", JS.Number (JS.Dec false 12 0))] ];
     MappingResult.totalRows := 2;
     MappingResult.mappedRows := 1;
     MappingResult.errorRows := 2;
     MappingResult.errors :=
       [ {| RowError.row := 2; RowError.message := itemMissing |};
         {| RowError.row := 2; RowError.message := qtyNotNumber |} ] |}.

(** An extracted text and a template whose pattern captures a word that is
    no number. *)
Definition totalPdf : ParsedFileData.t :=
  file pdf [ RowRecord [("content", JS.Str "Total: abc")] ].

Definition totalTemplate : TemplateMappingData.t :=
  {| TemplateMappingData.fileType := pdf;
     TemplateMappingData.skipRows := 0;
     TemplateMappingData.columns := [ column "total" "" true "number" ];
     TemplateMappingData.pdfSettings := Some [("total", "Total:\s*(\w+)")] |}.

(** An extracted text whose total is a number, and a second, optional
    field without pattern. *)
Definition invoicePdf : ParsedFileData.t :=
  file pdf [ RowRecord [("content", JS.Str "Invoice 17 Total: 4200 EUR")] ].

Definition invoiceTemplate : TemplateMappingData.t :=
  {| TemplateMappingData.fileType := pdf;
     TemplateMappingData.skipRows := 0;
     TemplateMappingData.columns :=
       [ column "total" "" true "number"; column "note" "" false "string" ];
     TemplateMappingData.pdfSettings := Some [("total", "Total:\s*(\d+)")] |}.

(** Two rows of a sheet; the second has no cell in column A.  Column AA
    is far to the right of both. *)
Definition sheetFile : ParsedFileData.t :=
  file excel
    [ RowArray [JS.Str "bolt"; JS.Str "12"];
      RowArray [JS.Undefined; JS.Str "7"] ].

Definition sheetTemplate : TemplateMappingData.t :=
  {| TemplateMappingData.fileType := excel;
     TemplateMappingData.skipRows := 0;
     TemplateMappingData.columns :=
       [ column "item" "A" true "string"; column "qty" "B" true "number";
         column "note" "AA" false "string" ];
     TemplateMappingData.pdfSettings := None |}.

(** A workbook of two sheets; the first has a header row and two rows of
    data. *)
Definition firstGrid : Grid :=
  [ [JS.Str "item"; JS.Str "qty"];
    [JS.Str "bolt"; JS.Number (JS.Dec false 12 0)];
    [JS.Str "nut"; JS.Number (JS.Dec false 7 0)] ].

Definition workbook : Workbook :=
  [ ("Quotes", firstGrid); ("Notes", [ [JS.Str "draft"] ]) ].

End Scenario.

(** * Further notions *)

Section MoreNotions.

Import FileParser Column TemplateMappingData.

(** The coerced value of a column for a row. *)
Definition fieldValue (host : Host) (ty : FileType) (sourceRow : Row)
    (mapping : Column.t) : Result JS.Value :=
  convertDataType host (sourceValue host ty sourceRow mapping)
    (dataType mapping).

(** The record [record] is row [i] mapped: for every column, one named
    [__proto__] apart, it has a field with the coerced value of the column,
    a required one never [null]; and it has no other field. *)
Definition mappedFrom (host : Host) (fileData : ParsedFileData.t)
    (columns : list Column.t) (i : Z) (record : Obj) : Prop :=
  (forall mapping,
     In mapping columns -> name mapping <> "__proto__" ->
     exists sourceRow v,
       rowAt (ParsedFileData.rows fileData) i = Some sourceRow
       /\ fieldValue host
            (Metadata.type (ParsedFileData.metadata fileData))
            sourceRow mapping = Ok v
       /\ getProp record (name mapping) = Some v
       /\ (required mapping = true -> v <> JS.Null))
  /\ (forall k,
        In k (map fst record) ->
        In k (map name columns) /\ k <> "__proto__").

End MoreNotions.

Section SkipNotions.

Import FileParser Column TemplateMappingData.

(** The file without its first [k] rows. *)
Definition dropRows (k : Z) (fileData : ParsedFileData.t) : ParsedFileData.t :=
  {| ParsedFileData.headers := ParsedFileData.headers fileData;
     ParsedFileData.rows := skipn (Z.to_nat k) (ParsedFileData.rows fileData);
     ParsedFileData.metadata := ParsedFileData.metadata fileData |}.

(** The template with another [skipRows]. *)
Definition withSkipRows (template : TemplateMappingData.t) (k : Z)
  : TemplateMappingData.t :=
  {| fileType := fileType template;
     skipRows := k;
     columns := columns template;
     pdfSettings := pdfSettings template |}.

Definition shiftError (k : Z) (e : RowError.t) : RowError.t :=
  {| RowError.row := RowError.row e + k;
     RowError.message := RowError.message e |}.

(** The result with the row number of every error raised by [k]. *)
Definition shiftRows (k : Z) (r : MappingResult.t) : MappingResult.t :=
  {| MappingResult.headers := MappingResult.headers r;
     MappingResult.rows := MappingResult.rows r;
     MappingResult.totalRows := MappingResult.totalRows r;
     MappingResult.mappedRows := MappingResult.mappedRows r;
     MappingResult.errorRows := MappingResult.errorRows r;
     MappingResult.errors := map (shiftError k) (MappingResult.errors r) |}.

Definition shiftState (k : Z) (st : RowState) : RowState :=
  {| mappedRow := mappedRow st;
     errors := map (shiftError k) (errors st);
     hasError := hasError st |}.

Definition shiftAcc (k : Z) (acc : list Obj * list RowError.t)
  : list Obj * list RowError.t :=
  (fst acc, map (shiftError k) (snd acc)).

End SkipNotions.

Section RowNotions.

Import FileParser Column TemplateMappingData.

(** The column has what it needs in the row: a value if it is required,
    and a value that coerces to its type. *)
Definition fieldOk (host : Host) (ty : FileType) (sourceRow : Row)
    (mapping : Column.t) : bool :=
  negb (required mapping && JS.isNullish (sourceValue host ty sourceRow mapping))
  && match fieldValue host ty sourceRow mapping with
     | Ok _ => true
     | Throw _ => false
     end.

Definition rowOk (host : Host) (ty : FileType) (cols : list Column.t)
    (sourceRow : Row) : bool :=
  forallb (fieldOk host ty sourceRow) cols.

End RowNotions.

Section PdfNotions.

Import FileParser Column TemplateMappingData.

(** [template.pdfSettings?.patterns[mapping.name]] *)
Definition patternOf (template : TemplateMappingData.t) (mapping : Column.t)
  : option string :=
  match pdfSettings template with
  | Some patterns => getProp patterns (name mapping)
  | None => None
  end.

(** The two errors of the free-text path for a column. *)
Definition noPattern (mapping : Column.t) : string :=
  "필수 필드 '" ++ name mapping ++ "'의 패턴이 정의되지 않았습니다.".

Definition notFound (mapping : Column.t) : string :=
  "필수 필드 '" ++ name mapping ++ "'의 값을 찾을 수 없습니다.".

(** What holds of [mappedRow] and [errors] in the loop of the free-text
    path after the columns [done]: every error is for row 1 and for a
    required column among them, there are no more errors than such columns,
    and every field of [mappedRow] is a column among them that has a
    pattern. *)
Definition pdfInv (template : TemplateMappingData.t) (done : list Column.t)
    (st : PlainObject * list RowError.t) : Prop :=
  Forall
    (fun e =>
       RowError.row e = 1
       /\ exists c,
            In c done /\ required c = true
            /\ (RowError.message e = noPattern c
                \/ RowError.message e = notFound c))
    (snd st)
  /\ (List.length (snd st) <= List.length (filter required done))%nat
  /\ (forall k, In k (map fst (own (fst st))) ->
      exists c p,
        In c done /\ name c = k /\ patternOf template c = Some p /\ p <> "").

End PdfNotions.

Section ShapeNotions.

Definition isArrayRow (r : Row) : bool :=
  match r with RowArray _ => true | RowRecord _ => false end.

Definition isRecordRow (r : Row) : bool :=
  match r with RowArray _ => false | RowRecord _ => true end.

(** The rows of the file have the shape of its kind: arrays of cells for a
    spreadsheet, records otherwise. *)
Definition rowsOfKind (fileData : ParsedFileData.t) : bool :=
  match Metadata.type (ParsedFileData.metadata fileData) with
  | excel => forallb isArrayRow (ParsedFileData.rows fileData)
  | csv | pdf => forallb isRecordRow (ParsedFileData.rows fileData)
  end.

End ShapeNotions.

(** ** More samples *)

Module Sample.

Import FileParser.

(** Two pages of a PDF, with a blank item on the first. *)
Definition pages : list (list string) :=
  [ ["Invoice"; "  "; "17"]; ["Ref:"; "Q-88"] ].

Definition refTemplate : TemplateMappingData.t :=
  {| TemplateMappingData.fileType := pdf;
     TemplateMappingData.skipRows := 0;
     TemplateMappingData.columns :=
       [ Scenario.column "ref" "" true "string" ];
     TemplateMappingData.pdfSettings := Some [("ref", "Ref:\s*(\S+)")] |}.

(** A directory with one workbook, one delimited file and one PDF. *)
Definition files : FileSystem :=
  {| existsSync := fun path =>
       ((path =? "uploads/quotes.xlsx") || (path =? "uploads/quotes.csv")
        || (path =? "uploads/quotes.pdf"))%string;
     basename := fun path => substring 8 (String.length path - 8) path;
     readWorkbook := fun _ => Ok Scenario.workbook;
     readRecords := fun _ =>
       Ok [ [("item", JS.Str "bolt"); ("qty", JS.Str "12")];
            [("item", JS.Str ""); ("qty", JS.Str "abc")] ];
     extractPages := fun _ => Ok pages |}.

End Sample.

Section GridNotions.

(** The document whose rows are the whole grid of a sheet, header row
    included. *)
Definition wholeGrid (grid : FileParser.Grid) (filename : string)
  : ParsedFileData.t :=
  {| ParsedFileData.headers := None;
     ParsedFileData.rows := map RowArray grid;
     ParsedFileData.metadata :=
       {| Metadata.totalRows := Z.of_nat (List.length grid);
          Metadata.type := excel;
          Metadata.sheetName := None;
          Metadata.filename := filename |} |}.

End GridNotions.

Section MappingNotions.

Import FileProcessor.

(** What [applyTemplateMapping] assigns to the field of an entry of the
    mapping; [undefined] stands for no assignment. *)
Definition mappedValue (data : FileData) (mapInfo : MapInfo) : JS.Value :=
  match mapInfo with
  | CellAt row col => cell data row col
  | Selector _ =>
      match data with
      | Text _ => JS.Str ""
      | Sheet _ => JS.Undefined
      end
  | Neither => JS.Undefined
  | NoObject => JS.Null
  end.

(** What the result holds under a field after the turn of its entry: the
    value assigned, and nothing when none was. *)
Definition stored (v : JS.Value) : option JS.Value :=
  match v with
  | JS.Undefined => None
  | _ => Some v
  end.

End MappingNotions.

Module MappingSample.

Import FileProcessor.

Definition entries : list (string * MapInfo) :=
  [ ("quotationId", CellAt 1 0); ("quantity", CellAt 1 1);
    ("vendor", CellAt 7 0); ("partner", Selector "Partner:");
    ("solution", NoObject) ].

End MappingSample.

(** * Properties *)

Local Open Scope list_scope.

(** ** The scenarios, evaluated *)

Section ScenarioChecks.

Import FileParser.

Example quotesCsv_result :
  applyTemplate Scenario.host Scenario.quotesCsv (Scenario.quotesTemplate csv 0)
  = Ok Scenario.quotesResult.
Proof. vm_compute. reflexivity. Qed.

Example sheetFile_result :
  applyTemplate Scenario.host Scenario.sheetFile Scenario.sheetTemplate
  = Ok {| MappingResult.headers := ["item"; "qty"; "note"];
          MappingResult.rows :=
            [ [("item", JS.Str "bolt");
               ("qty", JS.Number (JS.Dec false 12 0));
               ("note", JS.Null)] ];
          MappingResult.totalRows := 2;
          MappingResult.mappedRows := 1;
          MappingResult.errorRows := 1;
          MappingResult.errors :=
            [ {| RowError.row := 2;
                 RowError.message := "필수 필드 'item'의 값이 없습니다." |} ] |}.
Proof. vm_compute. reflexivity. Qed.

Example invoicePdf_result :
  applyTemplate Scenario.host Scenario.invoicePdf Scenario.invoiceTemplate
  = Ok {| MappingResult.headers := ["total"; "note"];
          MappingResult.rows :=
            [ [("total", JS.Number (JS.Dec false 4200 0))] ];
          MappingResult.totalRows := 1;
          MappingResult.mappedRows := 1;
          MappingResult.errorRows := 0;
          MappingResult.errors := [] |}.
Proof. vm_compute. reflexivity. Qed.

(** Names that JavaScript treats apart.  The record has no field for the
    column named [__proto__]; its fields named by array indexes come first,
    in ascending order; and the source column constructor, which the row
    lacks but every object inherits, is read as the inherited function. *)
Example prototype_names_result :
  applyTemplate Scenario.host
    (Scenario.file csv [ RowRecord [("a", JS.Str "x"); ("b", JS.Str "y")] ])
    {| TemplateMappingData.fileType := csv;
       TemplateMappingData.skipRows := 0;
       TemplateMappingData.columns :=
         [ Scenario.column "2" "a" true "string";
           Scenario.column "__proto__" "b" true "string";
           Scenario.column "1" "b" true "string";
           Scenario.column "maker" "constructor" true "string" ];
       TemplateMappingData.pdfSettings := None |}
  = Ok {| MappingResult.headers := ["2"; "__proto__"; "1"; "maker"];
          MappingResult.rows :=
            [ [("1", JS.Str "y"); ("2", JS.Str "x");
               ("maker", JS.Str "function Object() { [native code] }")] ];
          MappingResult.totalRows := 1;
          MappingResult.mappedRows := 1;
          MappingResult.errorRows := 0;
          MappingResult.errors := [] |}.
Proof. vm_compute. reflexivity. Qed.

(** Properties created in the order b, 10, 9, a stand as JavaScript
    enumerates them: 9, 10, b, a. *)
Example enumeration_order :
  map fst
    (setProp (setProp (setProp (setProp [] "b" JS.Null) "10" JS.Null)
                "9" JS.Null) "a" JS.Null)
  = ["9"; "10"; "b"; "a"]
  /\ Object_keys
       (setProp (setProp (setProp (setProp [] "b" JS.Null) "10" JS.Null)
                   "9" JS.Null) "a" JS.Null)
     = ["9"; "10"; "b"; "a"]
  /\ setProp [("9", JS.Null); ("b", JS.Null)] "b" (JS.Str "x")
     = [("9", JS.Null); ("b", JS.Str "x")].
Proof. repeat split. Qed.

(** After [null] has been assigned to [__proto__] the object inherits the
    accessor no more, and a second assignment creates a property. *)
Example assign_proto_twice :
  own (assign (assign emptyObject "__proto__" (JS.Str "x")) "__proto__"
         (JS.Str "y")) = []
  /\ own (assign (assign emptyObject "__proto__" JS.Null) "__proto__"
            (JS.Str "y")) = [("__proto__", JS.Str "y")].
Proof. split; reflexivity. Qed.

End ScenarioChecks.

(** ** Checks of the number grammar *)

Example StringToNumber_rejects :
  map JS.StringToNumber ["abc"; "1e"; "."; "+0x10"; "12px"; "1 2"; "infinity"]
  = [JS.NaN; JS.NaN; JS.NaN; JS.NaN; JS.NaN; JS.NaN; JS.NaN].
Proof. reflexivity. Qed.

Example StringToNumber_accepts :
  map JS.StringToNumber
    [""; "  "; " 4200 "; ".5"; "1."; "-12.50e3"; "0x1F"; "-Infinity"]
  = [JS.Dec false 0 0; JS.Dec false 0 0; JS.Dec false 4200 0;
     JS.Dec false 5 (-1); JS.Dec false 1 0; JS.Dec true 1250 1;
     JS.Dec false 31 0; JS.Infinity true].
Proof. reflexivity. Qed.

(** ** excelColToIndex *)

Section ColumnIndex.

Import FileParser.

Lemma codes_length s : List.length (JS.codes s) = String.length s.
Proof.
  unfold JS.codes. rewrite length_map.
  induction s as [|c s IH]; cbn; [reflexivity|now rewrite IH].
Qed.

(** A loop over the indexes of a list that reads the element at each index
    is a loop over the elements. *)
Lemma fold_left_indexes {A} (f : A -> Z -> A) l : forall before a,
  fold_left (fun r i => f r (nth i (before ++ l) 0))
    (seq (List.length before) (List.length l)) a
  = fold_left f l a.
Proof.
  induction l as [|c l IH]; intros before a; [reflexivity|].
  cbn [List.length seq fold_left]. rewrite nth_middle.
  specialize (IH (before ++ [c]) (f a c)).
  rewrite <- app_assoc, length_app in IH. cbn [app List.length] in IH.
  rewrite Nat.add_1_r in IH. exact IH.
Qed.

Lemma excelColToIndex_colRounded s :
  excelColToIndex s = JS.plus (colRounded (JS.Finite 0) (JS.codes s)) (- 1).
Proof.
  unfold excelColToIndex, colRounded, JS.charCodeAt.
  rewrite <- codes_length. f_equal.
  exact (fold_left_indexes
           (fun result c => JS.plus (JS.plus (JS.times26 result) c) (- 64))
           (JS.codes s) [] (JS.Finite 0)).
Qed.

Lemma colValue_cons a c l : colValue a (c :: l) = colValue (a * 26 + c - 64) l.
Proof. reflexivity. Qed.

Lemma colValue_app a l l' : colValue a (l ++ l') = colValue (colValue a l) l'.
Proof. unfold colValue. apply fold_left_app. Qed.

Lemma ones_pow n : 26 ^ Z.of_nat n = 25 * ones n + 1.
Proof.
  induction n as [|n IH].
  - reflexivity.
  - rewrite Nat2Z.inj_succ, Z.pow_succ_r by lia. cbn [ones]. lia.
Qed.

Lemma ones_nonneg n : 0 <= ones n.
Proof. induction n; cbn [ones]; lia. Qed.

Lemma ones_lt n m : (n < m)%nat -> 26 * ones n + 1 <= ones m.
Proof.
  induction 1 as [|m _ IH].
  - cbn [ones]. lia.
  - cbn [ones]. pose proof (ones_nonneg n). lia.
Qed.

Lemma upperCodes_cons c l :
  upperCodes (c :: l) = true <-> (65 <= c <= 90) /\ upperCodes l = true.
Proof.
  unfold upperCodes. cbn [forallb].
  rewrite !andb_true_iff, Z.leb_le, Z.leb_le. tauto.
Qed.

Lemma upperCodes_app l l' :
  upperCodes (l ++ l') = upperCodes l && upperCodes l'.
Proof. apply forallb_app. Qed.

(** The accumulator of the loop is shifted by one place per letter read. *)
Lemma colValue_shift l : forall a,
  colValue a l = a * 26 ^ Z.of_nat (List.length l) + colValue 0 l.
Proof.
  induction l as [|c l IH]; intros a.
  - cbn. lia.
  - rewrite !colValue_cons, IH, (IH (0 * 26 + c - 64)).
    cbn [List.length]. rewrite Nat2Z.inj_succ, Z.pow_succ_r by lia. ring.
Qed.

(** The names of length n take the values from [ones n] to [26 * ones n]. *)
Lemma colValue_bounds l :
  upperCodes l = true ->
  ones (List.length l) <= colValue 0 l <= 26 * ones (List.length l).
Proof.
  induction l as [|c l IH]; intros Hu.
  - cbn. lia.
  - apply upperCodes_cons in Hu. destruct Hu as [Hc Hl].
    specialize (IH Hl).
    rewrite colValue_cons, colValue_shift. cbn [List.length ones].
    rewrite ones_pow. pose proof (ones_nonneg (List.length l)). nia.
Qed.

Lemma colValue_last a l c : colValue a (l ++ [c]) = colValue a l * 26 + c - 64.
Proof. rewrite colValue_app. reflexivity. Qed.

Lemma colValue_pos l :
  upperCodes l = true -> l <> [] -> 1 <= colValue 0 l.
Proof.
  intros Hu Hne. pose proof (colValue_bounds l Hu) as Hb.
  destruct l as [|c l]; [congruence|].
  cbn [List.length ones] in Hb. pose proof (ones_nonneg (List.length l)). lia.
Qed.

(** Two names with the same value are the same name: read from the last
    letter, a value determines its last letter and the value of the rest. *)
Lemma colValue_inj l : forall l',
  upperCodes l = true -> upperCodes l' = true ->
  colValue 0 l = colValue 0 l' -> l = l'.
Proof.
  induction l as [|c l IH] using rev_ind; intros l' Hu Hu' E.
  - destruct l' as [|c' l'] using rev_ind; [reflexivity|].
    pose proof (colValue_pos _ Hu') as Hp.
    cbn in E. rewrite <- E in Hp.
    assert (l' ++ [c'] <> []) by (destruct l'; discriminate).
    specialize (Hp H). lia.
  - destruct l' as [|c' l' _] using rev_ind.
    + pose proof (colValue_pos _ Hu) as Hp.
      assert (l ++ [c] <> []) by (destruct l; discriminate).
      specialize (Hp H). cbn in E. cbn in Hp. lia.
    + rewrite upperCodes_app, andb_true_iff in Hu, Hu'.
      destruct Hu as [Hl Hc], Hu' as [Hl' Hc'].
      apply upperCodes_cons in Hc, Hc'.
      rewrite !colValue_last in E.
      assert (colValue 0 l = colValue 0 l' /\ c = c') as [E1 E2] by lia.
      rewrite (IH l' Hl Hl' E1), E2. reflexivity.
Qed.

(** Every positive integer is the value of a name. *)
Lemma colValue_surj n :
  0 <= n -> forall v, 1 <= v <= n ->
  exists l, l <> [] /\ upperCodes l = true /\ colValue 0 l = v.
Proof.
  intros Hn. pattern n. apply natlike_ind; [lia| |exact Hn].
  clear n Hn. intros n Hn IH v Hv.
  set (q := (v - 1) / 26). set (d := (v - 1) mod 26 + 1).
  assert (Hd : 1 <= d <= 26) by (subst d; pose proof (Z.mod_pos_bound (v - 1) 26); lia).
  assert (Hq : v = q * 26 + d).
  { subst q d. pose proof (Z.div_mod (v - 1) 26). lia. }
  assert (Hq0 : 0 <= q) by (subst q; apply Z.div_pos; lia).
  destruct (Z.eq_dec q 0) as [Z0|NZ].
  - exists [d + 64]. split; [discriminate|]. split.
    + apply upperCodes_cons. split; [lia|reflexivity].
    + cbn. lia.
  - destruct (IH q) as (l & Hne & Hu & Hl); [lia|].
    exists (l ++ [d + 64]). split; [destruct l; discriminate|]. split.
    + rewrite upperCodes_app, Hu. cbn [andb].
      apply upperCodes_cons. split; [lia|reflexivity].
    + rewrite colValue_last, Hl. lia.
Qed.

(** A smaller start gives a smaller value, whatever letters follow, as long
    as there are equally many. *)
Lemma colValue_lt_start l l' a a' :
  upperCodes l = true -> upperCodes l' = true ->
  List.length l = List.length l' -> a < a' ->
  colValue a l < colValue a' l'.
Proof.
  intros Hu Hu' Hlen Ha.
  rewrite (colValue_shift l a), (colValue_shift l' a').
  pose proof (colValue_bounds l Hu) as B. pose proof (colValue_bounds l' Hu') as B'.
  rewrite <- Hlen in *. rewrite ones_pow.
  pose proof (ones_nonneg (List.length l)). nia.
Qed.

Lemma colValue_lex l : forall l' a,
  upperCodes l = true -> upperCodes l' = true ->
  List.length l = List.length l' -> lexLt l l' = true ->
  colValue a l < colValue a l'.
Proof.
  induction l as [|c l IH]; intros [|c' l'] a Hu Hu' Hlen Hlt;
    try discriminate.
  apply upperCodes_cons in Hu, Hu'. destruct Hu as [Hc Hl], Hu' as [Hc' Hl'].
  injection Hlen as Hlen. cbn [lexLt] in Hlt. rewrite !colValue_cons.
  apply orb_true_iff in Hlt. destruct Hlt as [Hlt|Hlt].
  - apply Z.ltb_lt in Hlt. apply colValue_lt_start; auto; lia.
  - apply andb_true_iff in Hlt. destruct Hlt as [He Hlt].
    apply Z.eqb_eq in He. subst c'. apply IH; auto.
Qed.

Lemma colValue_shorter l l' :
  upperCodes l = true -> upperCodes l' = true ->
  (List.length l < List.length l')%nat ->
  colValue 0 l < colValue 0 l'.
Proof.
  intros Hu Hu' Hlen.
  pose proof (colValue_bounds l Hu). pose proof (colValue_bounds l' Hu').
  pose proof (ones_lt _ _ Hlen). lia.
Qed.

Lemma codes_ofCodes l :
  Forall (fun c => 0 <= c < 256) l -> JS.codes (ofCodes l) = l.
Proof.
  unfold JS.codes, ofCodes. intros H.
  rewrite list_ascii_of_string_of_list_ascii, map_map.
  induction H as [|c l Hc _ IH]; [reflexivity|].
  cbn [map]. rewrite IH, nat_ascii_embedding by lia.
  rewrite Z2Nat.id by lia. reflexivity.
Qed.

Lemma codes_inj s t : JS.codes s = JS.codes t -> s = t.
Proof.
  unfold JS.codes. intros E.
  rewrite <- (string_of_list_ascii_of_string s),
          <- (string_of_list_ascii_of_string t).
  f_equal. revert E.
  generalize (list_ascii_of_string s) (list_ascii_of_string t).
  induction l as [|a l IH]; intros [|b l'] E; try discriminate; auto.
  cbn [map] in E. injection E as E1 E2.
  apply Nat2Z.inj in E1.
  rewrite <- (ascii_nat_embedding a), <- (ascii_nat_embedding b), E1.
  f_equal. auto.
Qed.

Lemma upperCodes_range l :
  upperCodes l = true -> Forall (fun c => 0 <= c < 256) l.
Proof.
  induction l as [|c l IH]; intros H; constructor;
    apply upperCodes_cons in H; destruct H; auto; lia.
Qed.

Lemma isColumnName_codes s :
  isColumnName s = true <-> JS.codes s <> [] /\ upperCodes (JS.codes s) = true.
Proof.
  unfold isColumnName. rewrite andb_true_iff, negb_true_iff. split.
  - intros [Hne Hu]. split; [|exact Hu].
    destruct s; [discriminate Hne|discriminate].
  - intros [Hne Hu]. split; [|exact Hu].
    destruct s; [exfalso; apply Hne; reflexivity|reflexivity].
Qed.

End ColumnIndex.

Section ColumnIndexTheorems.

Import FileParser.

Lemma ones_le n m : (n <= m)%nat -> ones n <= ones m.
Proof.
  intros H. destruct (Nat.eq_dec n m) as [->|Hne]; [lia|].
  assert (Hlt : (n < m)%nat) by lia.
  pose proof (ones_lt _ _ Hlt). pose proof (ones_nonneg n). lia.
Qed.

(** An integer below 2^53 is a double: nothing is rounded. *)
Lemma round_exact z : Z.abs z < 2 ^ 53 -> JS.round z = JS.Finite z.
Proof.
  intros H. unfold JS.round. cbv zeta.
  apply Z.ltb_lt in H. now rewrite H.
Qed.

(** The value of the loop never falls below its start. *)
Lemma colValue_ge_start l : forall a,
  0 <= a -> upperCodes l = true -> a <= colValue a l.
Proof.
  induction l as [|c l IH]; intros a Ha Hu; [cbn; lia|].
  apply upperCodes_cons in Hu. destruct Hu as [Hc Hl].
  rewrite colValue_cons.
  specialize (IH (a * 26 + c - 64) ltac:(lia) Hl). lia.
Qed.

(** As long as the value of a name stays below 2^53 - 64, every number the
    loop goes through, [result * 26], [result * 26 + c] and
    [result * 26 + c - 64], is an integer below 2^53, and the rounded loop
    computes the exact value. *)
Lemma colRounded_exact l : forall a,
  0 <= a -> upperCodes l = true -> colValue a l < 2 ^ 53 - 64 ->
  colRounded (JS.Finite a) l = JS.Finite (colValue a l).
Proof.
  induction l as [|c l IH]; intros a Ha Hu Hb; [reflexivity|].
  apply upperCodes_cons in Hu. destruct Hu as [Hc Hl].
  rewrite colValue_cons in Hb |- *.
  pose proof (colValue_ge_start l (a * 26 + c - 64) ltac:(lia) Hl) as Hge.
  assert (Hstep :
    JS.plus (JS.plus (JS.times26 (JS.Finite a)) c) (- 64)
    = JS.Finite (a * 26 + c - 64)).
  { cbn [JS.times26]. rewrite round_exact by lia.
    cbn [JS.plus]. rewrite round_exact by lia.
    cbn [JS.plus]. replace (a * 26 + c + - 64) with (a * 26 + c - 64) by lia.
    apply round_exact. lia. }
  unfold colRounded. cbn [fold_left]. rewrite Hstep.
  apply (IH (a * 26 + c - 64)); [lia|exact Hl|exact Hb].
Qed.

(** For a name of up to eleven letters [excelColToIndex] is exact. *)
Lemma excelColToIndex_exact s :
  upperCodes (JS.codes s) = true -> (String.length s <= 11)%nat ->
  excelColToIndex s = JS.Finite (colValue 0 (JS.codes s) - 1).
Proof.
  intros Hu Hlen. rewrite excelColToIndex_colRounded.
  pose proof (colValue_bounds _ Hu) as B. rewrite codes_length in B.
  pose proof (ones_le _ _ Hlen) as Hle.
  pose proof (ones_nonneg (String.length s)) as H0.
  assert (H11 : 26 * ones 11 + 64 < 2 ^ 53 - 64) by (vm_compute; reflexivity).
  rewrite colRounded_exact by (try exact Hu; lia).
  unfold JS.plus.
  replace (colValue 0 (JS.codes s) + - 1) with (colValue 0 (JS.codes s) - 1)
    by lia.
  apply round_exact. lia.
Qed.

(** C7, as the specification states it, fails: from twelve letters on the
    numbers of the loop pass 2^53 and are rounded.  The distinct columns
    ZZZZZZZZZZZY and ZZZZZZZZZZZZ get the same index, which is the exact
    index of neither. *)
Lemma excelColToIndex_collision :
  isColumnName "ZZZZZZZZZZZY" = true
  /\ isColumnName "ZZZZZZZZZZZZ" = true
  /\ "ZZZZZZZZZZZY" <> "ZZZZZZZZZZZZ"
  /\ excelColToIndex "ZZZZZZZZZZZY" = JS.Finite 99246114928149472
  /\ excelColToIndex "ZZZZZZZZZZZZ" = JS.Finite 99246114928149472
  /\ colValue 0 (JS.codes "ZZZZZZZZZZZY") - 1 = 99246114928149460
  /\ colValue 0 (JS.codes "ZZZZZZZZZZZZ") - 1 = 99246114928149461.
Proof.
  split; [reflexivity|]. split; [reflexivity|]. split; [discriminate|].
  repeat split; vm_compute; reflexivity.
Qed.

(** C7, amended.  On the column names of up to eleven letters (the non-empty
    strings of the letters A..Z of that length) [excelColToIndex] is a
    bijection onto the integers from 0 to 3817158266467285, with A = 0,
    B = 1, ..., Z = 25, AA = 26, and [index + 1] grows strictly along the
    order of columns: shorter names first, alphabetical within a length. *)
Theorem excelColToIndex_bijection_ordered :
  (excelColToIndex "A" = JS.Finite 0 /\ excelColToIndex "B" = JS.Finite 1
   /\ excelColToIndex "Z" = JS.Finite 25
   /\ excelColToIndex "AA" = JS.Finite 26)
  /\ 26 * ones 11 - 1 = 3817158266467285
  /\ (forall s, isColumnName s = true -> (String.length s <= 11)%nat ->
        exists n, excelColToIndex s = JS.Finite n /\ 0 <= n <= 26 * ones 11 - 1)
  /\ (forall s t,
        isColumnName s = true -> (String.length s <= 11)%nat ->
        isColumnName t = true -> (String.length t <= 11)%nat ->
        excelColToIndex s = excelColToIndex t -> s = t)
  /\ (forall n, 0 <= n <= 26 * ones 11 - 1 ->
        exists s, isColumnName s = true /\ (String.length s <= 11)%nat
                  /\ excelColToIndex s = JS.Finite n)
  /\ (forall s t,
        isColumnName s = true -> (String.length s <= 11)%nat ->
        isColumnName t = true -> (String.length t <= 11)%nat ->
        columnLt s t = true ->
        exists a b,
          excelColToIndex s = JS.Finite a /\ excelColToIndex t = JS.Finite b
          /\ a + 1 < b + 1).
Proof.
  split; [repeat split; reflexivity|].
  split; [reflexivity|].
  split; [|split; [|split]].
  - intros s Hs Hlen. apply isColumnName_codes in Hs. destruct Hs as [Hne Hu].
    exists (colValue 0 (JS.codes s) - 1).
    split; [now apply excelColToIndex_exact|].
    pose proof (colValue_pos _ Hu Hne).
    pose proof (colValue_bounds _ Hu) as B. rewrite codes_length in B.
    pose proof (ones_le _ _ Hlen). lia.
  - intros s t Hs Hls Ht Hlt E.
    apply isColumnName_codes in Hs, Ht.
    destruct Hs as [_ Hu], Ht as [_ Hu'].
    rewrite !excelColToIndex_exact in E by assumption.
    injection E as E.
    apply codes_inj, colValue_inj; auto. lia.
  - intros n Hn.
    destruct (colValue_surj (n + 1) ltac:(lia) (n + 1) ltac:(lia))
      as (l & Hne & Hu & Hv).
    exists (ofCodes l).
    pose proof (codes_ofCodes l (upperCodes_range l Hu)) as Hc.
    assert (Hlen : (String.length (ofCodes l) <= 11)%nat).
    { rewrite <- codes_length, Hc.
      destruct (Nat.le_gt_cases (List.length l) 11) as [Hle|Hgt]; [exact Hle|].
      pose proof (colValue_bounds _ Hu) as B.
      pose proof (ones_lt _ _ Hgt). lia. }
    split; [apply isColumnName_codes; rewrite Hc; auto|].
    split; [exact Hlen|].
    rewrite excelColToIndex_exact by (rewrite ?Hc; assumption).
    rewrite Hc. f_equal. lia.
  - intros s t Hs Hls Ht Hlt Hcol.
    apply isColumnName_codes in Hs, Ht.
    destruct Hs as [_ Hu], Ht as [_ Hu'].
    exists (colValue 0 (JS.codes s) - 1), (colValue 0 (JS.codes t) - 1).
    split; [now apply excelColToIndex_exact|].
    split; [now apply excelColToIndex_exact|].
    unfold columnLt in Hcol. apply orb_true_iff in Hcol.
    destruct Hcol as [Hcol|Hcol].
    + apply Nat.ltb_lt in Hcol.
      pose proof (colValue_shorter _ _ Hu Hu' Hcol). lia.
    + apply andb_true_iff in Hcol. destruct Hcol as [Hlen Hlex].
      apply Nat.eqb_eq in Hlen.
      pose proof (colValue_lex _ _ 0 Hu Hu' Hlen Hlex). lia.
Qed.

(** The theorem at Z, AA and AB: Z comes before AA, which comes before AB,
    and the three indexes are 25, 26 and 27. *)
Lemma excelColToIndex_bijection_ordered_witness :
  isColumnName "Z" = true /\ isColumnName "AA" = true
  /\ columnLt "Z" "AA" = true
  /\ (exists a b,
        excelColToIndex "Z" = JS.Finite a /\ excelColToIndex "AA" = JS.Finite b
        /\ a + 1 < b + 1)
  /\ (exists a b,
        excelColToIndex "AA" = JS.Finite a /\ excelColToIndex "AB" = JS.Finite b
        /\ a + 1 < b + 1).
Proof.
  pose proof excelColToIndex_bijection_ordered as (_ & _ & _ & _ & _ & Hmono).
  split; [reflexivity|]. split; [reflexivity|]. split; [reflexivity|]. split.
  - apply (Hmono "Z" "AA"); try reflexivity; cbn; lia.
  - apply (Hmono "AA" "AB"); try reflexivity; cbn; lia.
Defined.

End ColumnIndexTheorems.

(** ** Assignments to the properties of an object *)

Section Assignments.

Lemma getProp_None_iff (o : Obj) k :
  getProp o k = None <-> ~ In k (map fst o).
Proof.
  induction o as [|[k' v'] o IH]; cbn; [tauto|].
  destruct (String.eqb_spec k' k) as [->|Hne].
  - split; [discriminate|]. intros H. exfalso. apply H. now left.
  - rewrite IH. split.
    + intros H [E|Hin]; [congruence|contradiction].
    + intros H Hin. apply H. now right.
Qed.

Lemma getProp_update_same o k v :
  getProp o k <> None -> getProp (update o k v) k = Some v.
Proof.
  induction o as [|[k' v'] o IH]; cbn; [congruence|].
  destruct (k' =? k)%string eqn:E; cbn; rewrite E; auto.
Qed.

Lemma getProp_update_other o k v k' :
  k <> k' -> getProp (update o k v) k' = getProp o k'.
Proof.
  intros Hne. induction o as [|[k0 v0] o IH]; cbn; [reflexivity|].
  destruct (String.eqb_spec k0 k) as [->|Hk]; cbn.
  - destruct (String.eqb_spec k k'); [contradiction|reflexivity].
  - now rewrite IH.
Qed.

Lemma update_keys o k v : map fst (update o k v) = map fst o.
Proof.
  induction o as [|[k0 v0] o IH]; cbn; [reflexivity|].
  destruct (k0 =? k)%string; cbn; [reflexivity|now rewrite IH].
Qed.

Lemma getProp_insertIndex_same o i k v :
  getProp o k = None -> getProp (insertIndex o i k v) k = Some v.
Proof.
  induction o as [|[k0 v0] o IH]; cbn [insertIndex getProp].
  - now rewrite String.eqb_refl.
  - destruct (k0 =? k)%string eqn:E0; [discriminate|]. intros Hn.
    destruct (arrayIndex k0) as [j|]; [destruct (j <? i)|];
      cbn [getProp]; rewrite ?E0, ?String.eqb_refl; auto.
Qed.

Lemma getProp_insertIndex_other o i k v k' :
  k <> k' -> getProp (insertIndex o i k v) k' = getProp o k'.
Proof.
  intros Hne. apply String.eqb_neq in Hne.
  induction o as [|[k0 v0] o IH]; cbn [insertIndex getProp].
  - now rewrite Hne.
  - destruct (arrayIndex k0) as [j|]; [destruct (j <? i)|];
      cbn [getProp]; rewrite ?Hne, ?IH; reflexivity.
Qed.

Lemma insertIndex_keys o i k v k' :
  In k' (map fst (insertIndex o i k v)) <-> k' = k \/ In k' (map fst o).
Proof.
  induction o as [|[k0 v0] o IH]; cbn; [intuition congruence|].
  destruct (arrayIndex k0) as [j|]; [destruct (j <? i)|]; cbn;
    rewrite ?IH; intuition congruence.
Qed.

Lemma getProp_app (o o' : Obj) k :
  getProp (o ++ o') k
  = match getProp o k with Some v => Some v | None => getProp o' k end.
Proof.
  induction o as [|[k' v'] o IH]; cbn; [reflexivity|].
  destruct (k' =? k)%string; [reflexivity|exact IH].
Qed.

Lemma getProp_setProp_same o k v : getProp (setProp o k v) k = Some v.
Proof.
  unfold setProp. destruct (getProp o k) as [w|] eqn:E.
  - apply getProp_update_same. congruence.
  - destruct (arrayIndex k) as [i|].
    + now apply getProp_insertIndex_same.
    + rewrite getProp_app, E. cbn. now rewrite String.eqb_refl.
Qed.

Lemma getProp_setProp_other o k v k' :
  k <> k' -> getProp (setProp o k v) k' = getProp o k'.
Proof.
  intros Hne. unfold setProp. destruct (getProp o k) as [w|] eqn:E.
  - now apply getProp_update_other.
  - destruct (arrayIndex k) as [i|].
    + now apply getProp_insertIndex_other.
    + rewrite getProp_app. cbn.
      destruct (String.eqb_spec k k'); [contradiction|].
      now destruct (getProp o k').
Qed.

Lemma setProp_keys (o : Obj) k v k' :
  In k' (map fst (setProp o k v)) -> k' = k \/ In k' (map fst o).
Proof.
  unfold setProp. destruct (getProp o k) as [w|].
  - rewrite update_keys. auto.
  - destruct (arrayIndex k) as [i|].
    + apply insertIndex_keys.
    + rewrite map_app, in_app_iff. cbn. intuition congruence.
Qed.

(** An assignment leaves the other properties as they are. *)
Lemma getProp_assign_other o k v k' :
  k <> k' -> getProp (own (assign o k v)) k' = getProp (own o) k'.
Proof.
  intros Hne. unfold assign.
  destruct ((k =? "__proto__")%string && negb (nullProto o) && _);
    cbn [own]; [reflexivity|now apply getProp_setProp_other].
Qed.

(** Under every name but [__proto__] an assignment stores its value. *)
Lemma getProp_assign_same o k v :
  k <> "__proto__" -> getProp (own (assign o k v)) k = Some v.
Proof.
  intros Hne. unfold assign.
  destruct (String.eqb_spec k "__proto__"); [contradiction|].
  cbn [andb own]. apply getProp_setProp_same.
Qed.

Lemma nullProto_assign o k v :
  k <> "__proto__" -> nullProto (assign o k v) = nullProto o.
Proof.
  intros Hne. unfold assign.
  destruct (String.eqb_spec k "__proto__"); [contradiction|reflexivity].
Qed.

(** The properties after an assignment are those before it and, unless the
    assignment went to the accessor [__proto__], the one assigned. *)
Lemma assign_keys o k v k' :
  In k' (map fst (own (assign o k v))) ->
  In k' (map fst (own o))
  \/ (k' = k /\ (k <> "__proto__" \/ nullProto o = true)).
Proof.
  unfold assign.
  destruct (String.eqb_spec k "__proto__") as [->|Hne]; cbn [andb].
  - destruct (nullProto o) eqn:Hp; cbn [negb andb own].
    + intros H. destruct (setProp_keys _ _ _ _ H); auto.
    + destruct (getProp (own o) "__proto__") as [w|] eqn:E; cbn [own]; auto.
      intros H. destruct (setProp_keys _ _ _ _ H) as [->|]; auto.
      left. apply Decidable.not_not.
      * destruct (in_dec string_dec "__proto__" (map fst (own o)));
          [now left|now right].
      * intros Hn. apply getProp_None_iff in Hn. congruence.
  - cbn [own]. intros H. destruct (setProp_keys _ _ _ _ H); auto.
Qed.

(** What an object has, it keeps. *)
Lemma getProp_assign_keeps o k v k' :
  getProp (own o) k' <> None -> getProp (own (assign o k v)) k' <> None.
Proof.
  intros H. destruct (String.eqb_spec k k') as [<-|Hne].
  - unfold assign.
    destruct ((k =? "__proto__")%string && negb (nullProto o) && _);
      cbn [own]; [exact H|]. rewrite getProp_setProp_same. discriminate.
  - now rewrite getProp_assign_other.
Qed.

End Assignments.

(** ** The row loop of the tabular path *)

Section RowLoop.

Import FileParser Column TemplateMappingData.

Context (host : Host).

Lemma prepend_nil st : prepend [] st = st.
Proof. destruct st; reflexivity. Qed.

Lemma prepend_pushError errs st row msg :
  pushError (prepend errs st) row msg = prepend errs (pushError st row msg).
Proof.
  unfold pushError, prepend, push; cbn. now rewrite app_assoc.
Qed.

Lemma mapColumn_prepend ty i sr errs st mapping :
  mapColumn host ty i sr (prepend errs st) mapping
  = mapResult (prepend errs) (mapColumn host ty i sr st mapping).
Proof.
  unfold mapColumn. destruct sr as [r|]; [|reflexivity].
  destruct (required mapping && JS.isNullish (sourceValue host ty r mapping));
    destruct (convertDataType host (sourceValue host ty r mapping)
                (dataType mapping));
    cbn [mapResult]; rewrite ?prepend_pushError; reflexivity.
Qed.

Lemma mapColumns_prepend ty i sr errs cols : forall st,
  mapColumns host ty i sr cols (prepend errs st)
  = mapResult (prepend errs) (mapColumns host ty i sr cols st).
Proof.
  induction cols as [|mapping cols IH]; intros st; [reflexivity|].
  cbn [mapColumns]. rewrite mapColumn_prepend.
  destruct (mapColumn host ty i sr st mapping) as [st'|e]; cbn; auto.
Qed.

Lemma rowInv_pushError i done st msg :
  rowInv i done st -> rowInv i done (pushError st (i + 1) msg).
Proof.
  intros (_ & Hrows & _). unfold pushError, push. repeat split; cbn.
  - intros _ E. now apply app_eq_nil in E as [_ ?].
  - apply Forall_app. split; [exact Hrows|]. now constructor.
  - discriminate.
Qed.

Lemma rowInv_weaken i done c st :
  rowInv i (done ++ [c]) st -> rowInv i done st.
Proof.
  intros (H1 & H2 & H3). repeat split; try apply H1; auto.
  intros Hf. specialize (H3 Hf). apply Forall_app in H3. tauto.
Qed.

Lemma rowInv_error i done done' st :
  hasError st = true -> rowInv i done st -> rowInv i done' st.
Proof.
  intros Ht (H1 & H2 & _). repeat split; try apply H1; auto. congruence.
Qed.

Lemma mapColumn_inv ty i sr done st mapping st' :
  rowInv i done st ->
  mapColumn host ty i sr st mapping = Ok st' ->
  rowInv i (done ++ [mapping]) st'.
Proof.
  intros Hinv. unfold mapColumn. destruct sr as [r|]; [|discriminate].
  set (value := sourceValue host ty r mapping).
  assert (Hst1 : rowInv i done
            (if required mapping && JS.isNullish value
             then pushError st (i + 1)
                    ("필수 필드 '" ++ name mapping ++ "'의 값이 없습니다.")%string
             else st)).
  { destruct (required mapping && JS.isNullish value);
      auto using rowInv_pushError. }
  revert Hst1.
  generalize (if required mapping && JS.isNullish value
              then pushError st (i + 1)
                     ("필수 필드 '" ++ name mapping ++ "'의 값이 없습니다.")%string
              else st).
  intros st1 Hst1.
  destruct (convertDataType host value (dataType mapping)) as [v|error];
    intros E; injection E as <-.
  - destruct Hst1 as (H1 & H2 & H3). repeat split; cbn; try apply H1; auto.
    intros Hf. apply Forall_app. split.
    + eapply Forall_impl; [|exact (H3 Hf)].
      intros c Hc Hn. apply getProp_assign_keeps, Hc, Hn.
    + constructor; [|constructor]. intros Hn.
      rewrite getProp_assign_same by exact Hn. discriminate.
  - apply rowInv_error with (done := done); [reflexivity|].
    now apply rowInv_pushError.
Qed.

Lemma mapColumns_inv ty i sr cols : forall done st st',
  rowInv i done st ->
  mapColumns host ty i sr cols st = Ok st' ->
  rowInv i (done ++ cols) st'.
Proof.
  induction cols as [|mapping cols IH]; intros done st st' Hinv E.
  - injection E as <-. now rewrite app_nil_r.
  - cbn [mapColumns] in E.
    destruct (mapColumn host ty i sr st mapping) as [st1|e] eqn:E1;
      [|discriminate].
    cbn [bind] in E.
    replace (done ++ mapping :: cols) with ((done ++ [mapping]) ++ cols)
      by now rewrite <- app_assoc.
    eapply IH; [|exact E]. eapply mapColumn_inv; eauto.
Qed.

Lemma rowInv_fresh i : rowInv i [] freshRow.
Proof.
  repeat split; cbn; try congruence; constructor.
Qed.

Lemma rowOutcome_inv fileData template i st :
  rowOutcome host fileData template i = Ok st ->
  rowInv i (columns template) st.
Proof.
  intros E. apply (mapColumns_inv _ _ _ _ [] freshRow st (rowInv_fresh i) E).
Qed.

(** One turn of the outer loop, by the outcome of its row. *)
Lemma mapRow_outcome fileData template mapped errs i :
  mapRow host (Metadata.type (ParsedFileData.metadata fileData))
    (ParsedFileData.rows fileData) (columns template) (mapped, errs) i
  = mapResult
      (fun st => (mapped ++ contribution st, errs ++ errors st))
      (rowOutcome host fileData template i).
Proof.
  unfold mapRow, rowOutcome.
  replace {| mappedRow := emptyObject; errors := errs; hasError := false |}
    with (prepend errs freshRow)
    by (unfold prepend, freshRow; cbn; now rewrite app_nil_r).
  rewrite mapColumns_prepend.
  destruct (mapColumns host _ i _ (columns template) freshRow) as [st|e] eqn:E;
    [|reflexivity].
  cbn [mapResult bind prepend errors hasError mappedRow].
  pose proof (rowOutcome_inv fileData template i st E) as (H1 & _ & _).
  unfold contribution, push.
  destruct (hasError st) eqn:Hh, (errors st) as [|e0 l] eqn:He.
  - exfalso. now apply H1.
  - now rewrite app_nil_r.
  - reflexivity.
  - exfalso. assert (false = true) by (apply H1; discriminate). discriminate.
Qed.

(** The outer loop: every index has an outcome, and the loop ends with the
    contributions and the errors of the rows, in order. *)
Lemma mapRows_outcomes fileData template idxs : forall mapped errs mapped' errs',
  mapRows host (Metadata.type (ParsedFileData.metadata fileData))
    (ParsedFileData.rows fileData) (columns template) idxs (mapped, errs)
  = Ok (mapped', errs') ->
  exists outcomes,
    Forall2 (fun i st => rowOutcome host fileData template i = Ok st) idxs outcomes
    /\ mapped' = mapped ++ flat_map contribution outcomes
    /\ errs' = errs ++ flat_map errors outcomes.
Proof.
  induction idxs as [|i idxs IH]; intros mapped errs mapped' errs' E.
  - injection E as <- <-. exists []. rewrite !app_nil_r.
    repeat split; constructor.
  - cbn [mapRows] in E. rewrite mapRow_outcome in E.
    destruct (rowOutcome host fileData template i) as [st|e] eqn:Ei;
      [|discriminate].
    cbn [mapResult bind] in E.
    destruct (IH _ _ _ _ E) as (outcomes & HF & Hm & He).
    exists (st :: outcomes). split; [now constructor|].
    cbn [flat_map]. rewrite !app_assoc. auto.
Qed.

End RowLoop.

(** ** Rows and their errors in the result *)

Section RowErrors.

Import FileParser.

Lemma indexes_NoDup skipRows len : NoDup (indexes skipRows len).
Proof.
  unfold indexes. apply Injective_map_NoDup; [|apply seq_NoDup].
  intros a b E. lia.
Qed.


Lemma indexes_range skipRows len i :
  In i (indexes skipRows len) <-> skipRows <= i < len.
Proof.
  unfold indexes. rewrite in_map_iff. split.
  - intros (k & <- & Hk). apply in_seq in Hk. lia.
  - intros H. exists (Z.to_nat (i - skipRows)). split; [lia|].
    apply in_seq. lia.
Qed.

Lemma filter_all {A} (f : A -> bool) l :
  Forall (fun a => f a = true) l -> filter f l = l.
Proof.
  induction 1 as [|a l Ha _ IH]; cbn; [reflexivity|]. now rewrite Ha, IH.
Qed.

Lemma filter_none {A} (f : A -> bool) l :
  Forall (fun a => f a = false) l -> filter f l = [].
Proof.
  induction 1 as [|a l Ha _ IH]; cbn; [reflexivity|]. now rewrite Ha, IH.
Qed.

Lemma numbered_other idxs outcomes j :
  Forall2 numbered idxs outcomes -> ~ In j idxs ->
  Forall (fun e => (RowError.row e =? j + 1) = false)
    (flat_map errors outcomes).
Proof.
  induction 1 as [|i st idxs outcomes Hi _ IH]; intros Hj; cbn [flat_map].
  - constructor.
  - apply Forall_app. split.
    + eapply Forall_impl; [|exact Hi]. cbn. intros e He.
      apply Z.eqb_neq. intros E. apply Hj. left. lia.
    + apply IH. intros Hin. apply Hj. now right.
Qed.

(** The entries of the final [errors] with the number of a row are the
    errors of that row. *)
Lemma errors_of_each_row idxs outcomes :
  NoDup idxs -> Forall2 numbered idxs outcomes ->
  forall before,
    Forall (fun e => ~ In (RowError.row e - 1) idxs) before ->
    Forall2 (fun i st =>
               filter (fun e => RowError.row e =? i + 1)
                 (before ++ flat_map errors outcomes) = errors st)
      idxs outcomes.
Proof.
  intros Hnd HF. induction HF as [|i st idxs outcomes Hi HF IH];
    intros before Hb; [constructor|].
  inversion Hnd as [|? ? Hni Hnd']; subst.
  constructor.
  - cbn [flat_map]. rewrite !filter_app.
    rewrite (filter_none _ before), (filter_all _ (errors st)),
      (filter_none _ (flat_map errors outcomes)).
    + now rewrite app_nil_r.
    + now apply numbered_other with (idxs := idxs).
    + eapply Forall_impl; [|exact Hi]. cbn. intros e He. now apply Z.eqb_eq.
    + eapply Forall_impl; [|exact Hb]. cbn. intros e He.
      apply Z.eqb_neq. intros E. apply He. left. lia.
  - cbn [flat_map]. rewrite app_assoc. apply IH; [exact Hnd'|].
    apply Forall_app. split.
    + eapply Forall_impl; [|exact Hb]. cbn. intros e He Hin.
      apply He. now right.
    + eapply Forall_impl; [|exact Hi]. cbn. intros e He Hin.
      apply Hni. now replace i with (RowError.row e - 1) by lia.
Qed.




End RowErrors.

(** ** applyTemplate: rows, errors and totals *)

Section ApplyTemplate.

Import FileParser Column TemplateMappingData.

Context (host : Host).

Lemma applyTemplate_Ok fileData template r :
  applyTemplate host fileData template = Ok r <->
  (if isPdfPath fileData template
   then applyPdfTemplate host fileData template
   else applyTabular host fileData template) = Ok r.
Proof.
  unfold applyTemplate.
  destruct (if isPdfPath fileData template
            then applyPdfTemplate host fileData template
            else applyTabular host fileData template);
    split; congruence.
Qed.

Lemma skipRows_or_0 z : (if z =? 0 then 0 else z) = z.
Proof. destruct (Z.eqb_spec z 0); congruence. Qed.

(** The result of the tabular path, by the outcomes of its rows. *)
Lemma applyTabular_outcomes fileData template r :
  applyTabular host fileData template = Ok r ->
  let len := Z.of_nat (List.length (ParsedFileData.rows fileData)) in
  exists outcomes,
    Forall2 (fun i st => rowOutcome host fileData template i = Ok st)
      (indexes (skipRows template) len) outcomes
    /\ r = {| MappingResult.headers := map name (columns template);
              MappingResult.rows := flat_map contribution outcomes;
              MappingResult.totalRows := len - skipRows template;
              MappingResult.mappedRows :=
                Z.of_nat (List.length (flat_map contribution outcomes));
              MappingResult.errorRows :=
                Z.of_nat (List.length (flat_map errors outcomes));
              MappingResult.errors := flat_map errors outcomes |}.
Proof.
  unfold applyTabular. rewrite skipRows_or_0. cbv zeta. intros E.
  destruct (mapRows host _ _ _ _ _) as [[mapped errs]|e] eqn:Em;
    [|discriminate].
  apply mapRows_outcomes in Em. destruct Em as (outcomes & HF & -> & ->).
  cbn [bind app] in E. injection E as <-.
  exists outcomes. split; [exact HF|reflexivity].
Qed.

Lemma outcomes_numbered fileData template idxs outcomes :
  Forall2 (fun i st => rowOutcome host fileData template i = Ok st)
    idxs outcomes ->
  Forall2 numbered idxs outcomes.
Proof.
  induction 1 as [|i st idxs outcomes Hi _ IH]; constructor; auto.
  apply rowOutcome_inv in Hi. apply Hi.
Qed.

(** The errors of the free-text path all carry the row number 1. *)
Lemma applyPattern_rows template pdfContent mappedRow errs mapping mappedRow' errs' :
  applyPattern host template pdfContent (mappedRow, errs) mapping
    = Ok (mappedRow', errs') ->
  Forall (fun e => RowError.row e = 1) errs ->
  Forall (fun e => RowError.row e = 1) errs'.
Proof.
  unfold applyPattern. intros E Herrs.
  assert (Hpush : forall msg,
    Forall (fun e => RowError.row e = 1)
      (push errs {| RowError.row := 1; RowError.message := msg |})).
  { intros msg. apply Forall_app. split; [exact Herrs|]. now repeat constructor. }
  repeat match type of E with
         | context [match ?x with _ => _ end] => destruct x
         | context [if ?b then _ else _] => destruct b
         | bind ?m _ = _ => destruct m; cbn [bind] in E
         end;
    try discriminate; injection E as <- <-; auto.
Qed.

Lemma applyPatterns_rows template pdfContent cols :
  forall mappedRow errs mappedRow' errs',
  applyPatterns host template pdfContent cols (mappedRow, errs)
    = Ok (mappedRow', errs') ->
  Forall (fun e => RowError.row e = 1) errs ->
  Forall (fun e => RowError.row e = 1) errs'.
Proof.
  induction cols as [|mapping cols IH]; intros m errs m' errs' E Herrs.
  - now injection E as <- <-.
  - cbn [applyPatterns] in E.
    destruct (applyPattern host template pdfContent (m, errs) mapping)
      as [[m1 errs1]|e] eqn:E1; [|discriminate].
    cbn [bind] in E. eapply IH; [exact E|].
    eapply applyPattern_rows; eauto.
Qed.

(** The result of the free-text path, by the final [mappedRow] and
    [errors] of its loop. *)
Lemma applyPdfTemplate_result fileData template r :
  applyPdfTemplate host fileData template = Ok r ->
  exists mappedRow errs,
    Forall (fun e => RowError.row e = 1) errs
    /\ r = {| MappingResult.headers := map name (columns template);
              MappingResult.rows :=
                match errs with [] => [mappedRow] | _ :: _ => [] end;
              MappingResult.totalRows := 1;
              MappingResult.mappedRows :=
                match errs with [] => 1 | _ :: _ => 0 end;
              MappingResult.errorRows := Z.of_nat (List.length errs);
              MappingResult.errors := errs |}.
Proof.
  unfold applyPdfTemplate. intros E.
  destruct (applyPatterns host template _ (columns template)
              (emptyObject, []))
    as [[m errs]|e] eqn:Ep; [|discriminate].
  cbn [bind] in E. injection E as <-.
  exists (own m), errs. split.
  - eapply applyPatterns_rows; [exact Ep|constructor].
  - destruct errs; reflexivity.
Qed.

End ApplyTemplate.

(** ** The tabular path returns *)

Section TabularReturns.

Import FileParser Column TemplateMappingData.

Context (host : Host).

Lemma mapColumns_returns ty i r cols : forall st,
  exists st', mapColumns host ty i (Some r) cols st = Ok st'.
Proof.
  induction cols as [|mapping cols IH]; intros st; [now exists st|].
  cbn [mapColumns]. unfold mapColumn at 1.
  destruct (convertDataType host (sourceValue host ty r mapping)
              (dataType mapping)); cbn [bind]; apply IH.
Qed.

Lemma mapRows_returns ty sourceData cols idxs :
  Forall (fun i => 0 <= i < Z.of_nat (List.length sourceData)) idxs ->
  forall acc, exists acc', mapRows host ty sourceData cols idxs acc = Ok acc'.
Proof.
  induction 1 as [|i idxs Hi _ IH]; intros [mapped errs];
    [now eexists|].
  cbn [mapRows]. unfold mapRow at 1, rowAt.
  destruct (Z.ltb_spec i 0) as [|_]; [lia|].
  destruct (nth_error sourceData (Z.to_nat i)) as [r|] eqn:En.
  - destruct (mapColumns_returns ty i r cols
                {| mappedRow := emptyObject; errors := errs;
                   hasError := false |})
      as [st ->].
    cbn [bind]. apply IH.
  - apply nth_error_None in En. lia.
Qed.

(** With [skipRows] not negative, the tabular path always returns a
    result: a required field without value and a failure of coercion end in
    [errors], never in an exception. *)
Lemma applyTemplate_tabular_returns fileData template :
  isPdfPath fileData template = false ->
  0 <= skipRows template ->
  exists r, applyTemplate host fileData template = Ok r.
Proof.
  intros Hpath Hskip.
  unfold applyTemplate, applyTabular. rewrite Hpath, skipRows_or_0.
  destruct (mapRows_returns
              (Metadata.type (ParsedFileData.metadata fileData))
              (ParsedFileData.rows fileData) (columns template)
              (indexes (skipRows template)
                 (Z.of_nat (List.length (ParsedFileData.rows fileData))))
              ltac:(apply Forall_forall; intros i Hi;
                    apply indexes_range in Hi; lia)
              ([], [])) as [[mapped errs] ->].
  cbn [bind]. eauto.
Qed.

End TabularReturns.

(** ** All or nothing per row *)

Section AllOrNothing.

Import FileParser Column TemplateMappingData.

(** C1.  Whenever [applyTemplate] returns a result, each row is mapped all
    or nothing.  On the tabular path [rows] is the concatenation, in row
    order, of what each row from [skipRows] on gives: exactly one record
    (with a field for every column, one named [__proto__] apart) if the row
    has no entry in [errors], no record if it has one.  On the free-text
    path every error belongs to the single row 1, and [rows] holds one
    record if [errors] is empty and none otherwise. *)
Theorem applyTemplate_all_or_nothing host fileData template r :
  applyTemplate host fileData template = Ok r ->
  if isPdfPath fileData template then
    errorsOfRow r 1 = MappingResult.errors r
    /\ ((MappingResult.errors r = []
         /\ exists mapped, MappingResult.rows r = [mapped])
        \/ (MappingResult.errors r <> [] /\ MappingResult.rows r = []))
  else
    exists contributions,
      MappingResult.rows r = List.concat contributions
      /\ Forall2 (allOrNothing host fileData template r)
           (indexes (skipRows template)
              (Z.of_nat (List.length (ParsedFileData.rows fileData))))
           contributions.
Proof.
  intros E. apply applyTemplate_Ok in E.
  destruct (isPdfPath fileData template).
  - apply applyPdfTemplate_result in E.
    destruct E as (mapped & errs & Hrows & ->).
    unfold errorsOfRow. cbn [MappingResult.errors MappingResult.rows]. split.
    + apply filter_all. eapply Forall_impl; [|exact Hrows].
      cbn. intros e He. now apply Z.eqb_eq.
    + destruct errs; [left; eauto|right; split; [discriminate|reflexivity]].
  - apply applyTabular_outcomes in E. cbv zeta in E.
    destruct E as (outcomes & HF & ->).
    exists (map contribution outcomes).
    cbn [MappingResult.rows]. split; [apply flat_map_concat_map|].
    pose proof (errors_of_each_row _ _ (indexes_NoDup _ _)
                  (outcomes_numbered host _ _ _ _ HF) [] (Forall_nil _))
      as Herr.
    cbn [app] in Herr.
    set (idxs := indexes _ _) in *. clearbody idxs.
    unfold allOrNothing, errorsOfRow. cbn [MappingResult.errors].
    generalize dependent (flat_map errors outcomes). intros all Herr.
    induction HF as [|i st idxs outcomes Hi HF IH]; [constructor|].
    inversion Herr as [|? ? ? ? Hei Herr']; subst.
    cbn [map]. constructor; [|now apply IH].
    exists st. split; [exact Hi|]. split; [exact Hei|].
    rewrite Hei. unfold contribution.
    pose proof (rowOutcome_inv host _ _ _ _ Hi) as (H1 & _ & H3).
    destruct (errors st) as [|e0 l] eqn:He.
    + left. repeat split. apply H3.
      destruct (hasError st); [|reflexivity].
      exfalso. now apply H1.
    + right. split; [discriminate|reflexivity].
Qed.

(** A witness of C1: the two records of [quotesCsv], the first mapped, the
    second left out with its two errors. *)
Lemma applyTemplate_all_or_nothing_witness :
  exists contributions,
    MappingResult.rows Scenario.quotesResult = List.concat contributions
    /\ Forall2
         (allOrNothing Scenario.host Scenario.quotesCsv
            (Scenario.quotesTemplate csv 0) Scenario.quotesResult)
         [0; 1] contributions.
Proof.
  exact (applyTemplate_all_or_nothing Scenario.host Scenario.quotesCsv
           (Scenario.quotesTemplate csv 0) Scenario.quotesResult eq_refl).
Defined.

End AllOrNothing.

(** ** Totals *)

Section Totals.

Import FileParser Column TemplateMappingData.







End Totals.

(** ** Kinds of file and template *)

Section Dispatch.

Import FileParser Column TemplateMappingData.

(** C4, as the specification states it, fails: [quotesCsv] is delimited
    text, the template says spreadsheet, and [applyTemplate] returns the
    mapped record and the row errors all the same. *)
Lemma kind_mismatch_counterexample :
  Metadata.type (ParsedFileData.metadata Scenario.quotesCsv) = csv
  /\ fileType (Scenario.quotesTemplate excel 0) = excel
  /\ applyTemplate Scenario.host Scenario.quotesCsv
       (Scenario.quotesTemplate excel 0)
     = Ok Scenario.quotesResult
  /\ List.length (MappingResult.rows Scenario.quotesResult) = 1%nat
  /\ List.length (MappingResult.errors Scenario.quotesResult) = 2%nat.
Proof. repeat split. Qed.

(** C4, amended.  When the kind of the file differs from the kind of the
    template, [applyTemplate] raises no mismatch error: it runs the tabular
    path, which does not read [fileType], and returns its result, mapped
    rows and row errors included; with [skipRows] not negative it does
    return one. *)
Theorem applyTemplate_kind_mismatch host fileData template :
  Metadata.type (ParsedFileData.metadata fileData) <> fileType template ->
  applyTemplate host fileData template
    = rethrown host (applyTabular host fileData template)
  /\ (forall k,
        applyTabular host fileData (withFileType template k)
        = applyTabular host fileData template)
  /\ (0 <= skipRows template ->
      exists r, applyTemplate host fileData template = Ok r).
Proof.
  intros Hne.
  assert (Hpath : isPdfPath fileData template = false).
  { unfold isPdfPath.
    destruct (fileType template),
      (Metadata.type (ParsedFileData.metadata fileData));
      try reflexivity.
    congruence. }
  split; [|split; [reflexivity|]].
  - unfold applyTemplate, rethrown. now rewrite Hpath.
  - now apply applyTemplate_tabular_returns.
Qed.

(** The amended C4 on [quotesCsv], delimited text, with a template that
    says pdf. *)
Lemma applyTemplate_kind_mismatch_witness :
  applyTemplate Scenario.host Scenario.quotesCsv (Scenario.quotesTemplate pdf 0)
    = rethrown Scenario.host
        (applyTabular Scenario.host Scenario.quotesCsv
           (Scenario.quotesTemplate pdf 0))
  /\ (forall k,
        applyTabular Scenario.host Scenario.quotesCsv
          (withFileType (Scenario.quotesTemplate pdf 0) k)
        = applyTabular Scenario.host Scenario.quotesCsv
            (Scenario.quotesTemplate pdf 0))
  /\ (0 <= 0 ->
      exists r,
        applyTemplate Scenario.host Scenario.quotesCsv
          (Scenario.quotesTemplate pdf 0) = Ok r).
Proof.
  apply (applyTemplate_kind_mismatch Scenario.host Scenario.quotesCsv
           (Scenario.quotesTemplate pdf 0)).
  discriminate.
Defined.

(** ** Failures of coercion *)

(** C3: on the free-text path a failure of coercion is not collected.  The
    pattern captures abc, [convertDataType] throws for the number field, and
    the error leaves [applyTemplate] through its [catch]; the tabular path
    collects the same failure in [errors] (see [quotesCsv_result]). *)
Theorem applyTemplate_pdf_coercion_failure_throws host :
  RegExp_compiles host "Total:\s*(\w+)" = true ->
  RegExp_match host "Total:\s*(\w+)" "Total: abc" = Some (Some "abc"%string) ->
  applyTemplate host Scenario.totalPdf Scenario.totalTemplate
  = Throw (Error "템플릿 적용 오류: 'abc'은(는) 유효한 숫자가 아닙니다.").
Proof.
  intros Hc Hm.
  unfold applyTemplate, applyPdfTemplate, isPdfPath. cbn.
  rewrite Hc. cbn. rewrite Hm. reflexivity.
Qed.

(** C3 on the host of the scenarios. *)
Lemma applyTemplate_pdf_coercion_failure_throws_witness :
  applyTemplate Scenario.host Scenario.totalPdf Scenario.totalTemplate
  = Throw (Error "템플릿 적용 오류: 'abc'은(는) 유효한 숫자가 아닙니다.").
Proof.
  exact (applyTemplate_pdf_coercion_failure_throws Scenario.host
           eq_refl eq_refl).
Defined.

End Dispatch.

(** ** parseExcel *)

Section ParseExcel.

Import FileParser.

(** C5, as the specification states it, fails on [workbook]: the grid of
    the first sheet has three rows; [parseExcel] gives the cells of the
    first one as [headers], not column letters, and only the other two as
    [rows]. *)
Lemma parseExcel_counterexample :
  List.length Scenario.firstGrid = 3%nat
  /\ ParsedFileData.rows (parseExcel Scenario.workbook "quotes.xlsx")
     = [ RowArray [JS.Str "bolt"; JS.Number (JS.Dec false 12 0)];
         RowArray [JS.Str "nut"; JS.Number (JS.Dec false 7 0)] ]
  /\ ParsedFileData.headers (parseExcel Scenario.workbook "quotes.xlsx")
     = Some [JS.Str "item"; JS.Str "qty"]
  /\ ParsedFileData.rows (parseExcel Scenario.workbook "quotes.xlsx")
     <> map RowArray Scenario.firstGrid
  /\ ParsedFileData.headers (parseExcel Scenario.workbook "quotes.xlsx")
     <> Some [JS.Str "A"; JS.Str "B"].
Proof. repeat split; discriminate. Qed.

(** C5, amended.  [parseExcel] reads the first sheet only, whatever sheets
    follow; it takes the first row of the sheet's grid as [headers] and
    returns the remaining rows as [rows], so that the header row followed
    by [rows] is the grid; [totalRows] counts the remaining rows. *)
Theorem parseExcel_splits_header sheet grid others filename :
  ParsedFileData.headers (parseExcel ((sheet, grid) :: others) filename)
    = hd_error grid
  /\ ParsedFileData.rows (parseExcel ((sheet, grid) :: others) filename)
     = map RowArray (tl grid)
  /\ (forall header,
        ParsedFileData.headers (parseExcel ((sheet, grid) :: others) filename)
          = Some header ->
        map RowArray grid
        = RowArray header
          :: ParsedFileData.rows
               (parseExcel ((sheet, grid) :: others) filename))
  /\ Metadata.totalRows
       (ParsedFileData.metadata
          (parseExcel ((sheet, grid) :: others) filename))
     = Z.of_nat (List.length (tl grid))
  /\ Metadata.sheetName
       (ParsedFileData.metadata
          (parseExcel ((sheet, grid) :: others) filename))
     = Some sheet
  /\ parseExcel ((sheet, grid) :: others) filename
     = parseExcel [(sheet, grid)] filename.
Proof.
  repeat split. intros header E. cbn in E.
  destruct grid as [|first rest]; [discriminate|].
  injection E as <-. reflexivity.
Qed.

End ParseExcel.

(** ** The value of a column in a record *)

Section SourceValue.

Import FileParser Column.

(** C6, as the specification states it, fails: the second record of
    [quotesCsv] has the column [item], holding the empty string, and a
    record may hold the number 0; both are read as [null], and the empty
    [item] is reported as a required field without value. *)
Lemma sourceValue_counterexample :
  getProp [("item", JS.Str ""); ("qty", JS.Str "abc")] "item"
    = Some (JS.Str "")
  /\ sourceValue Scenario.host csv
       (RowRecord [("item", JS.Str ""); ("qty", JS.Str "abc")])
       (Scenario.column "item" "item" true "string")
     = JS.Null
  /\ sourceValue Scenario.host csv
       (RowRecord [("qty", JS.Number (JS.Dec false 0 0))])
       (Scenario.column "qty" "qty" true "number")
     = JS.Null
  /\ In {| RowError.row := 2; RowError.message := Scenario.itemMissing |}
       (MappingResult.errors Scenario.quotesResult).
Proof. repeat split. left. reflexivity. Qed.

(** Every member of [Object.prototype] is an object, hence truthy. *)
Lemma Object_prototype_truthy k member :
  getProp Object_prototype k = Some member -> JS.truthy member = true.
Proof.
  unfold Object_prototype. cbn [getProp].
  repeat match goal with
         | |- context [if ?b then _ else _] => destruct b
         end;
    intros E; try discriminate; injection E as <-; reflexivity.
Qed.

(** C6, amended.  On the delimited-text path the value of a column is the
    record's own value under that name when the record has one and it is
    truthy; it is [null] when that value is falsy (the empty string, 0, NaN,
    false, null, undefined).  When the record has no such column the value
    is [null], unless the name is one of the twelve that every object
    inherits from [Object.prototype] (constructor, toString, __proto__,
    ...): then it is the inherited member, which is truthy.  It is never
    [undefined]. *)
Theorem sourceValue_csv host fields mapping :
  sourceValue host csv (RowRecord fields) mapping
    = match getProp fields (sourceColumn mapping) with
      | Some v => if JS.truthy v then v else JS.Null
      | None =>
          match getProp Object_prototype (sourceColumn mapping) with
          | Some member => member
          | None => JS.Null
          end
      end
  /\ (JS.truthy (sourceValue host csv (RowRecord fields) mapping) = true
      \/ sourceValue host csv (RowRecord fields) mapping = JS.Null).
Proof.
  unfold sourceValue, getNamed, get, JS.orElse.
  destruct (getProp fields (sourceColumn mapping)) as [v|].
  - destruct (JS.truthy v) eqn:Ev; auto.
  - destruct (getProp Object_prototype (sourceColumn mapping)) as [member|]
      eqn:Em.
    + pose proof (Object_prototype_truthy _ _ Em) as Ht.
      rewrite Ht. split; [reflexivity|now left].
    + cbn. auto.
Qed.

End SourceValue.

(** ** Messages of coercion failures *)

Section CoercionMessages.

Import FileParser Column.







End CoercionMessages.

Section CoercionWitness.

Import FileParser.


End CoercionWitness.

(** * Further properties of the code *)

(** ** convertDataType *)

Section Coercion.

Import FileParser.

Context (host : Host).

(** What [convertDataType] returns when it returns: [null] exactly for
    a raw value that is [null] or [undefined]; for the type number a number
    that is not NaN, namely [Number(value)]; for the type date the ISO text
    of the date; and for every other type, known or not, [String(value)]. *)
Theorem convertDataType_result value dataType v :
  convertDataType host value dataType = Ok v ->
  (JS.isNullish value = true /\ v = JS.Null)
  \/ (JS.isNullish value = false
      /\ v <> JS.Null
      /\ ((dataType = "number"
           /\ v = JS.Number (JS.ToNumber value)
           /\ JS.isNaN (JS.ToNumber value) = false)
          \/ (dataType = "date"
              /\ exists iso,
                   v = JS.Str iso /\ Date_toISOString host value = Some iso)
          \/ (dataType <> "number" /\ dataType <> "date"
              /\ v = JS.Str (ToString host value)))).
Proof.
  unfold convertDataType. intros E.
  destruct (JS.isNullish value); [left; split; congruence|right].
  split; [reflexivity|].
  destruct (String.eqb_spec dataType "number") as [->|Hn].
  - destruct (JS.isNaN (JS.ToNumber value)) eqn:En; [discriminate|].
    injection E as <-. split; [discriminate|]. left. auto.
  - destruct (String.eqb_spec dataType "date") as [->|Hd].
    + destruct (Date_toISOString host value) as [iso|] eqn:Ed; [|discriminate].
      injection E as <-. split; [discriminate|]. right. left. eauto.
    + injection E as <-. split; [discriminate|]. right. right. auto.
Qed.

(** X1.  Coercing a coerced value again changes nothing, for every type
    but date: [convertDataType(convertDataType(x, t), t)] is
    [convertDataType(x, t)]. *)
Theorem convertDataType_idempotent value dataType v :
  dataType <> "date" ->
  convertDataType host value dataType = Ok v ->
  convertDataType host v dataType = Ok v.
Proof.
  intros Hd E. unfold convertDataType in *.
  destruct (JS.isNullish value); [injection E as <-; reflexivity|].
  destruct (String.eqb_spec dataType "number") as [->|Hn].
  - destruct (JS.isNaN (JS.ToNumber value)) eqn:En; [discriminate|].
    injection E as <-. cbn. now rewrite En.
  - destruct (String.eqb_spec dataType "date") as [->|_]; [congruence|].
    injection E as <-. reflexivity.
Qed.

End Coercion.

Section CoercionWitnesses.

Import FileParser.

(** X1 at the text 12 coerced to a number, coerced again. *)
Lemma convertDataType_idempotent_witness :
  convertDataType Scenario.host (JS.Number (JS.Dec false 12 0)) "number"
  = Ok (JS.Number (JS.Dec false 12 0)).
Proof.
  apply (convertDataType_idempotent Scenario.host (JS.Str "12") "number").
  - discriminate.
  - reflexivity.
Defined.

End CoercionWitnesses.

(** ** The records of the tabular path *)

Section Records.

Import FileParser Column TemplateMappingData.

Context (host : Host).

(** A turn of the inner loop that leaves [hasError] unset has assigned the
    coerced value of its column. *)
Lemma mapColumn_clean ty i sourceRow st mapping st' :
  mapColumn host ty i (Some sourceRow) st mapping = Ok st' ->
  hasError st' = false ->
  hasError st = false
  /\ exists v,
       fieldValue host ty sourceRow mapping = Ok v
       /\ (required mapping = true -> v <> JS.Null)
       /\ mappedRow st' = assign (mappedRow st) (name mapping) v.
Proof.
  unfold mapColumn, fieldValue.
  destruct (required mapping
            && JS.isNullish (sourceValue host ty sourceRow mapping)) eqn:Er;
    destruct (convertDataType host (sourceValue host ty sourceRow mapping)
                (dataType mapping)) as [v|e] eqn:Ec;
    intros E; injection E as <-; cbn; intros Hh; try discriminate.
  split; [exact Hh|]. exists v. repeat split.
  intros Hreq. rewrite Hreq in Er. cbn in Er.
  destruct (convertDataType_result host _ _ _ Ec) as [[Hn _]|(_ & Hv & _)];
    congruence.
Qed.

Lemma Forall2_In_r {A B} (P : A -> B -> Prop) l l' y :
  Forall2 P l l' -> In y l' -> exists x, In x l /\ P x y.
Proof.
  induction 1 as [|a b l l' Hab _ IH]; intros Hin; [contradiction|].
  destruct Hin as [<-|Hin].
  - exists a. split; [now left|exact Hab].
  - destruct (IH Hin) as (x & Hx & Hp). exists x. split; [now right|exact Hp].
Qed.

(** Once set, [hasError] stays set to the end of the row. *)
Lemma mapColumns_hasError_stays ty i sr cols : forall st st',
  mapColumns host ty i sr cols st = Ok st' ->
  hasError st = true -> hasError st' = true.
Proof.
  induction cols as [|c cols IH]; intros st st' E Ht.
  - now injection E as <-.
  - cbn [mapColumns] in E. unfold mapColumn at 1 in E.
    destruct sr as [r|]; [|discriminate].
    destruct (required c && JS.isNullish _);
      destruct (convertDataType host _ _); cbn [bind] in E;
      eapply IH; try exact E; cbn; auto.
Qed.

(** A row that ends without error has, for each of its columns, one named
    [__proto__] apart, a field with the coerced value of the column; it has
    no other new field, and the fields of other names are as they were. *)
Lemma mapColumns_clean ty i sourceRow cols : forall st st',
  mapColumns host ty i (Some sourceRow) cols st = Ok st' ->
  hasError st' = false ->
  NoDup (map name cols) ->
  (nullProto (mappedRow st) = true -> ~ In "__proto__" (map name cols)) ->
  (forall c, In c cols -> name c <> "__proto__" ->
     exists v,
       fieldValue host ty sourceRow c = Ok v
       /\ getProp (own (mappedRow st')) (name c) = Some v
       /\ (required c = true -> v <> JS.Null))
  /\ (forall k, In k (map fst (own (mappedRow st'))) ->
        In k (map fst (own (mappedRow st)))
        \/ (In k (map name cols) /\ k <> "__proto__"))
  /\ (forall k, ~ In k (map name cols) ->
        getProp (own (mappedRow st')) k = getProp (own (mappedRow st)) k).
Proof.
  induction cols as [|c cols IH]; intros st st' E Hh Hnd Hproto.
  - injection E as <-. split; [intros c []|]. split; auto.
  - cbn [mapColumns] in E.
    destruct (mapColumn host ty i (Some sourceRow) st c) as [st1|e] eqn:E1;
      [|discriminate].
    cbn [bind] in E. cbn [map] in Hnd, Hproto.
    inversion Hnd as [|? ? Hni Hnd']; subst.
    assert (Hh1 : hasError st1 = false).
    { destruct (hasError st1) eqn:Hs; [|reflexivity].
      rewrite (mapColumns_hasError_stays _ _ _ _ _ _ E Hs) in Hh.
      discriminate. }
    destruct (mapColumn_clean _ _ _ _ _ _ E1 Hh1) as (_ & v & Hv & Hreq & Hm1).
    destruct (IH st1 st' E Hh Hnd') as (IH1 & IH2 & IH3).
    { rewrite Hm1. intros Hp Hin.
      destruct (string_dec (name c) "__proto__") as [En|Hn].
      - apply Hni. now rewrite En.
      - rewrite nullProto_assign in Hp by exact Hn.
        apply (Hproto Hp). now right. }
    split; [|split].
    + intros c' [<-|Hin] Hn; [|now apply IH1].
      exists v. split; [exact Hv|]. split; [|exact Hreq].
      rewrite IH3 by exact Hni. rewrite Hm1.
      now apply getProp_assign_same.
    + intros k Hk. destruct (IH2 k Hk) as [Hin|[Hin Hn]].
      * rewrite Hm1 in Hin.
        destruct (assign_keys _ _ _ _ Hin) as [Ho|[-> Hc]]; [now left|].
        right. split; [now left|].
        destruct Hc as [Hc|Hc]; [exact Hc|].
        intros En. apply (Hproto Hc). left. exact En.
      * right. split; [now right|exact Hn].
    + intros k Hk. rewrite IH3 by (intros Hin; apply Hk; now right).
      rewrite Hm1. apply getProp_assign_other.
      intros En. apply Hk. now left.
Qed.

(** X2.  On the tabular path, with distinct field names in the template,
    every mapped record comes from one row from [skipRows] on: for every
    column of the template, one named [__proto__] apart, it has a field that
    holds [convertDataType] of the value the column reads from that row, the
    field of a required column is never [null], and it has no field that is
    not a column.  A column named [__proto__] gives no field. *)
Theorem mapped_records_shape fileData template r :
  applyTemplate host fileData template = Ok r ->
  isPdfPath fileData template = false ->
  NoDup (map name (columns template)) ->
  Forall
    (fun record =>
       exists i,
         skipRows template <= i
           < Z.of_nat (List.length (ParsedFileData.rows fileData))
         /\ mappedFrom host fileData (columns template) i record)
    (MappingResult.rows r).
Proof.
  intros E Hpath Hnd. apply applyTemplate_Ok in E. rewrite Hpath in E.
  apply applyTabular_outcomes in E. cbv zeta in E.
  destruct E as (outcomes & HF & ->).
  cbn [MappingResult.rows MappingResult.headers].
  apply Forall_forall. intros record Hin.
  apply in_flat_map in Hin. destruct Hin as (st & Hst & Hrec).
  destruct (Forall2_In_r _ _ _ _ HF Hst) as (i & Hi & Eo).
  apply indexes_range in Hi.
  pose proof (rowOutcome_inv host _ _ _ _ Eo) as (H1 & _ & _).
  unfold contribution in Hrec.
  destruct (errors st) as [|e0 l] eqn:He; [|contradiction].
  destruct Hrec as [<-|[]].
  assert (Hh : hasError st = false).
  { destruct (hasError st); [|reflexivity]. exfalso. now apply H1. }
  exists i. split; [exact Hi|].
  unfold rowOutcome in Eo. unfold mappedFrom.
  destruct (rowAt (ParsedFileData.rows fileData) i) as [sourceRow|] eqn:Er.
  - destruct (mapColumns_clean _ _ _ _ _ _ Eo Hh Hnd) as (Hc1 & Hc2 & _);
      [discriminate|].
    split.
    + intros c Hin Hn. destruct (Hc1 c Hin Hn) as (v & Hv & Hg & Hreq).
      exists sourceRow, v. auto.
    + intros k Hk. destruct (Hc2 k Hk) as [[]|Hin]. exact Hin.
  - destruct (columns template) as [|c cols] eqn:Ec; [|discriminate].
    injection Eo as <-. split; [intros c []|intros k []].
Qed.

End Records.

Section RecordsWitness.

Import FileParser.

(** X2 on [quotesCsv]: its one mapped record has the fields item and
    qty of one of the two rows. *)
Lemma mapped_records_shape_witness :
  Forall
    (fun record =>
       exists i,
         0 <= i < 2
         /\ mappedFrom Scenario.host Scenario.quotesCsv
              Scenario.quotesColumns i record)
    (MappingResult.rows Scenario.quotesResult).
Proof.
  apply (mapped_records_shape Scenario.host Scenario.quotesCsv
           (Scenario.quotesTemplate csv 0) Scenario.quotesResult).
  - reflexivity.
  - reflexivity.
  - repeat constructor; cbn; intuition discriminate.
Defined.

End RecordsWitness.

(** ** The errors of the tabular path *)

Section ErrorList.

Import FileParser Column TemplateMappingData.

Context (host : Host).

Lemma Forall2_In_l {A B} (P : A -> B -> Prop) l l' x :
  Forall2 P l l' -> In x l -> exists y, In y l' /\ P x y.
Proof.
  induction 1 as [|a b l l' Hab _ IH]; intros Hin; [contradiction|].
  destruct Hin as [<-|Hin].
  - exists b. split; [now left|exact Hab].
  - destruct (IH Hin) as (y & Hy & Hp). exists y. split; [now right|exact Hp].
Qed.

Lemma Forall2_and {A B} (P Q : A -> B -> Prop) l l' :
  Forall2 P l l' -> Forall2 Q l l' -> Forall2 (fun a b => P a b /\ Q a b) l l'.
Proof.
  induction 1 as [|a b l l' Hab _ IH]; intros HQ; inversion HQ; subst;
    constructor; auto.
Qed.

(** A field pushes at most one error: when it is required and has no
    value, its coercion cannot fail as well. *)
Lemma mapColumn_one_error ty i sr st mapping st' :
  mapColumn host ty i sr st mapping = Ok st' ->
  (List.length (errors st') <= S (List.length (errors st)))%nat.
Proof.
  unfold mapColumn. destruct sr as [r|]; [|discriminate].
  unfold convertDataType.
  destruct (required mapping) eqn:Hreq;
    destruct (JS.isNullish (sourceValue host ty r mapping)); cbn [andb].
  - intros E. injection E as <-. cbn. unfold push. rewrite length_app. cbn. lia.
  - repeat match goal with
           | |- context [if ?b then _ else _] => destruct b
           | |- context [match ?x with _ => _ end] => destruct x
           end;
      intros E; injection E as <-; cbn; unfold push;
      rewrite ?length_app; cbn; lia.
  - intros E. injection E as <-. cbn. lia.
  - repeat match goal with
           | |- context [if ?b then _ else _] => destruct b
           | |- context [match ?x with _ => _ end] => destruct x
           end;
      intros E; injection E as <-; cbn; unfold push;
      rewrite ?length_app; cbn; lia.
Qed.

Lemma mapColumns_errors_bound ty i sr cols : forall st st',
  mapColumns host ty i sr cols st = Ok st' ->
  (List.length (errors st')
   <= List.length (errors st) + List.length cols)%nat.
Proof.
  induction cols as [|c cols IH]; intros st st' E.
  - injection E as <-. cbn. lia.
  - cbn [mapColumns] in E.
    destruct (mapColumn host ty i sr st c) as [st1|e] eqn:E1; [|discriminate].
    cbn [bind] in E. apply IH in E. apply mapColumn_one_error in E1.
    cbn [List.length]. lia.
Qed.

(** X3.  On the tabular path no row has more entries in [errors] than the
    template has columns: every field of a row gives at most one error. *)
Theorem errors_per_row_bound fileData template r rowNumber :
  applyTemplate host fileData template = Ok r ->
  isPdfPath fileData template = false ->
  (List.length (errorsOfRow r rowNumber)
   <= List.length (columns template))%nat.
Proof.
  intros E Hpath. apply applyTemplate_Ok in E. rewrite Hpath in E.
  apply applyTabular_outcomes in E. cbv zeta in E.
  destruct E as (outcomes & HF & ->).
  unfold errorsOfRow. cbn [MappingResult.errors].
  set (idxs := indexes _ _) in *.
  pose proof (outcomes_numbered host _ _ _ _ HF) as Hnum.
  destruct (in_dec Z.eq_dec (rowNumber - 1) idxs) as [Hin|Hnin].
  - pose proof (errors_of_each_row _ _ (indexes_NoDup _ _) Hnum []
                  (Forall_nil _)) as Herr.
    cbn [app] in Herr.
    destruct (Forall2_In_l _ _ _ _ (Forall2_and _ _ _ _ HF Herr) Hin)
      as (st & _ & Eo & Hf).
    replace (rowNumber - 1 + 1) with rowNumber in Hf by lia.
    rewrite Hf. unfold rowOutcome in Eo.
    apply mapColumns_errors_bound in Eo. cbn in Eo. lia.
  - pose proof (numbered_other _ _ _ Hnum Hnin) as Hno.
    replace (rowNumber - 1 + 1) with rowNumber in Hno by lia.
    rewrite (filter_none _ _ Hno). cbn. lia.
Qed.

Lemma errors_rows_in idxs outcomes :
  Forall2 numbered idxs outcomes ->
  Forall (fun e => In (RowError.row e - 1) idxs) (flat_map errors outcomes).
Proof.
  induction 1 as [|i st idxs outcomes Hi _ IH]; cbn [flat_map];
    [constructor|].
  apply Forall_app. split.
  - eapply Forall_impl; [|exact Hi]. cbn. intros e He. left. lia.
  - eapply Forall_impl; [|exact IH]. cbn. intros e He. now right.
Qed.

Lemma StronglySorted_block a block rest :
  Forall (fun x => x = a) block ->
  Forall (fun x => a <= x) rest ->
  StronglySorted Z.le rest ->
  StronglySorted Z.le (block ++ rest).
Proof.
  intros Hb Hr Hs. induction block as [|x block IH]; [exact Hs|].
  inversion Hb as [|? ? Hx Hb']; subst. cbn. constructor; [now apply IH|].
  apply Forall_app. split; [|exact Hr].
  eapply Forall_impl; [|exact Hb']. cbn. intros y Hy. lia.
Qed.

Lemma errors_sorted idxs outcomes :
  Forall2 numbered idxs outcomes ->
  StronglySorted Z.lt idxs ->
  StronglySorted Z.le (map RowError.row (flat_map errors outcomes)).
Proof.
  induction 1 as [|i st idxs outcomes Hi HF IH]; intros Hs;
    [constructor|].
  apply StronglySorted_inv in Hs. destruct Hs as [Hs Hlt].
  cbn [flat_map]. rewrite map_app. apply (StronglySorted_block (i + 1)).
  - apply Forall_map. exact Hi.
  - apply Forall_map. eapply Forall_impl; [|exact (errors_rows_in _ _ HF)].
    cbn. intros e He. rewrite Forall_forall in Hlt.
    specialize (Hlt _ He). lia.
  - now apply IH.
Qed.

Lemma indexes_sorted skipRows len : StronglySorted Z.lt (indexes skipRows len).
Proof.
  unfold indexes. generalize (Z.to_nat (len - skipRows)) as n.
  generalize 0%nat as start.
  intros start n. revert start.
  induction n as [|n IH]; intros start; cbn [seq map]; constructor.
  - apply IH.
  - apply Forall_forall. intros x Hx. apply in_map_iff in Hx.
    destruct Hx as (k & <- & Hk). apply in_seq in Hk. lia.
Qed.

(** X4.  On the tabular path [errors] is in row order: its row numbers
    never decrease along the list, and each lies between [skipRows + 1] and
    the number of rows of the file. *)
Theorem errors_in_row_order fileData template r :
  applyTemplate host fileData template = Ok r ->
  isPdfPath fileData template = false ->
  StronglySorted Z.le (map RowError.row (MappingResult.errors r))
  /\ Forall
       (fun e =>
          skipRows template < RowError.row e
            <= Z.of_nat (List.length (ParsedFileData.rows fileData)))
       (MappingResult.errors r).
Proof.
  intros E Hpath. apply applyTemplate_Ok in E. rewrite Hpath in E.
  apply applyTabular_outcomes in E. cbv zeta in E.
  destruct E as (outcomes & HF & ->). cbn [MappingResult.errors].
  pose proof (outcomes_numbered host _ _ _ _ HF) as Hnum. split.
  - apply (errors_sorted _ _ Hnum), indexes_sorted.
  - eapply Forall_impl; [|exact (errors_rows_in _ _ Hnum)].
    cbn. intros e He. apply indexes_range in He. lia.
Qed.

End ErrorList.

Section ErrorListWitness.

Import FileParser.

(** X3 on [quotesCsv]: its second row has two errors, the template two
    columns. *)
Lemma errors_per_row_bound_witness :
  (List.length (errorsOfRow Scenario.quotesResult 2) <= 2)%nat.
Proof.
  exact (errors_per_row_bound Scenario.host Scenario.quotesCsv
           (Scenario.quotesTemplate csv 0) Scenario.quotesResult 2
           eq_refl eq_refl).
Defined.

(** X4 on [quotesCsv]. *)
Lemma errors_in_row_order_witness :
  StronglySorted Z.le
    (map RowError.row (MappingResult.errors Scenario.quotesResult))
  /\ Forall (fun e => 0 < RowError.row e <= 2)
       (MappingResult.errors Scenario.quotesResult).
Proof.
  exact (errors_in_row_order Scenario.host Scenario.quotesCsv
           (Scenario.quotesTemplate csv 0) Scenario.quotesResult
           eq_refl eq_refl).
Defined.

End ErrorListWitness.

(** ** Skipping rows *)

Section SkipRows.

Import FileParser Column TemplateMappingData.

Context (host : Host).

Lemma pushError_shift k st i msg :
  pushError (shiftState k st) (i + k + 1) msg
  = shiftState k (pushError st (i + 1) msg).
Proof.
  replace (i + k + 1) with (i + 1 + k) by lia.
  unfold pushError, shiftState, push.
  cbn [mappedRow errors hasError]. now rewrite map_app.
Qed.

Lemma mapColumn_shift ty i k sr st mapping :
  mapColumn host ty (i + k) sr (shiftState k st) mapping
  = mapResult (shiftState k) (mapColumn host ty i sr st mapping).
Proof.
  unfold mapColumn. destruct sr as [r|]; [|reflexivity].
  destruct (required mapping && JS.isNullish (sourceValue host ty r mapping));
    destruct (convertDataType host (sourceValue host ty r mapping)
                (dataType mapping));
    cbn [mapResult]; rewrite ?pushError_shift; reflexivity.
Qed.

Lemma mapColumns_shift ty i k sr cols : forall st,
  mapColumns host ty (i + k) sr cols (shiftState k st)
  = mapResult (shiftState k) (mapColumns host ty i sr cols st).
Proof.
  induction cols as [|c cols IH]; intros st; [reflexivity|].
  cbn [mapColumns]. rewrite mapColumn_shift.
  destruct (mapColumn host ty i sr st c); cbn; auto.
Qed.

Lemma rowAt_skipn rows k j :
  0 <= k -> 0 <= j ->
  rowAt rows (j + k) = rowAt (skipn (Z.to_nat k) rows) j.
Proof.
  intros Hk Hj. unfold rowAt.
  destruct (Z.ltb_spec (j + k) 0); [lia|].
  destruct (Z.ltb_spec j 0); [lia|].
  rewrite nth_error_skipn. f_equal. lia.
Qed.

Lemma mapRows_shift ty rows cols k js :
  0 <= k -> Forall (fun j => 0 <= j) js ->
  forall acc,
    mapRows host ty rows cols (map (fun j => j + k) js) (shiftAcc k acc)
    = mapResult (shiftAcc k)
        (mapRows host ty (skipn (Z.to_nat k) rows) cols js acc).
Proof.
  intros Hk. induction 1 as [|j js Hj _ IH]; intros [mapped errs];
    [reflexivity|].
  cbn [map mapRows]. unfold mapRow. cbn [shiftAcc fst snd].
  rewrite (rowAt_skipn rows k j Hk Hj).
  change {| mappedRow := emptyObject; errors := map (shiftError k) errs;
            hasError := false |}
    with (shiftState k {| mappedRow := emptyObject; errors := errs;
                          hasError := false |}).
  rewrite mapColumns_shift.
  destruct (mapColumns host ty j _ cols _) as [st|e]; [|reflexivity].
  cbn [mapResult bind shiftState hasError mappedRow errors].
  specialize (IH (if hasError st then mapped
                  else push mapped (own (mappedRow st)),
                  errors st)).
  exact IH.
Qed.

Lemma indexes_shift k len :
  indexes k len = map (fun j => j + k) (indexes 0 (len - k)).
Proof.
  unfold indexes. rewrite map_map. rewrite Z.sub_0_r.
  apply map_ext. intros n. lia.
Qed.

Lemma skipRows_drops fileData template k :
  isPdfPath fileData template = false ->
  0 <= k <= Z.of_nat (List.length (ParsedFileData.rows fileData)) ->
  applyTemplate host fileData (withSkipRows template k)
  = mapResult (shiftRows k)
      (applyTemplate host (dropRows k fileData) (withSkipRows template 0)).
Proof.
  intros Hpath Hk.
  unfold applyTemplate.
  change (isPdfPath fileData (withSkipRows template k))
    with (isPdfPath fileData template).
  change (isPdfPath (dropRows k fileData) (withSkipRows template 0))
    with (isPdfPath fileData template).
  rewrite Hpath. unfold applyTabular.
  cbn [skipRows withSkipRows columns dropRows ParsedFileData.rows
       ParsedFileData.metadata].
  rewrite skipRows_or_0. cbn [Z.eqb].
  rewrite indexes_shift.
  assert (Hlen : Z.of_nat (List.length (skipn (Z.to_nat k)
                    (ParsedFileData.rows fileData)))
                 = Z.of_nat (List.length (ParsedFileData.rows fileData)) - k).
  { rewrite length_skipn. lia. }
  rewrite Hlen, Z.sub_0_r.
  pose proof (mapRows_shift
                (Metadata.type (ParsedFileData.metadata fileData))
                (ParsedFileData.rows fileData) (columns template) k
                (indexes 0 (Z.of_nat (List.length
                   (ParsedFileData.rows fileData)) - k))
                ltac:(lia)
                ltac:(apply Forall_forall; intros j Hj;
                      apply indexes_range in Hj; lia)
                ([], [])) as Hs.
  change (shiftAcc k ([], [])) with (@nil Obj, @nil RowError.t) in Hs.
  rewrite Hs.
  destruct (mapRows host _ (skipn _ _) _ _ _) as [[mapped errs]|e];
    [|reflexivity].
  cbn [mapResult bind shiftAcc fst snd shiftRows MappingResult.headers
       MappingResult.rows MappingResult.totalRows MappingResult.mappedRows
       MappingResult.errorRows MappingResult.errors].
  now rewrite length_map.
Qed.

(** X5.  Skipping [k] rows, for [k] from 0 to the number of rows, gives
    what the template gives without skipping on the file with its first [k]
    rows removed: the same headers, mapped rows and totals, and the same
    errors with row numbers higher by [k], so that error rows always count
    from the first row of the file. *)
Theorem applyTemplate_skipRows_drops fileData template k :
  isPdfPath fileData template = false ->
  0 <= k <= Z.of_nat (List.length (ParsedFileData.rows fileData)) ->
  applyTemplate host fileData (withSkipRows template k)
  = mapResult (shiftRows k)
      (applyTemplate host (dropRows k fileData) (withSkipRows template 0)).
Proof. apply skipRows_drops. Qed.

(** [applyTemplate] reads the rows and the kind of a file, nothing else. *)
Lemma applyTemplate_reads fileData fileData' template :
  ParsedFileData.rows fileData = ParsedFileData.rows fileData' ->
  Metadata.type (ParsedFileData.metadata fileData)
    = Metadata.type (ParsedFileData.metadata fileData') ->
  applyTemplate host fileData template = applyTemplate host fileData' template.
Proof.
  intros Hr Ht.
  unfold applyTemplate, isPdfPath, applyPdfTemplate, applyTabular.
  now rewrite Hr, Ht.
Qed.

(** X11.  The header row that [parseExcel] takes off acts as one skipped
    row: mapping the whole grid of a sheet with [skipRows = 1] gives the
    headers, mapped rows and totals of mapping the parsed document with
    [skipRows = 0], and the same errors numbered one higher. *)
Theorem parseExcel_header_is_a_skipped_row sheet grid others filename template :
  grid <> [] ->
  applyTemplate host (wholeGrid grid filename) (withSkipRows template 1)
  = mapResult (shiftRows 1)
      (applyTemplate host (parseExcel ((sheet, grid) :: others) filename)
         (withSkipRows template 0)).
Proof.
  intros Hne.
  rewrite (skipRows_drops (wholeGrid grid filename) template 1).
  - f_equal. apply applyTemplate_reads; [|reflexivity].
    cbn. now destruct grid.
  - unfold isPdfPath. cbn. apply andb_false_r.
  - cbn. rewrite length_map. destruct grid; [contradiction|cbn; lia].
Qed.

End SkipRows.

Section SkipRowsWitness.

Import FileParser.

(** X5 on [quotesCsv] with one row skipped: the errors of its second row
    are those of the only row of the shortened file, numbered 2 instead
    of 1. *)
Lemma applyTemplate_skipRows_drops_witness :
  applyTemplate Scenario.host Scenario.quotesCsv
    (withSkipRows (Scenario.quotesTemplate csv 0) 1)
  = mapResult (shiftRows 1)
      (applyTemplate Scenario.host (dropRows 1 Scenario.quotesCsv)
         (withSkipRows (Scenario.quotesTemplate csv 0) 0)).
Proof.
  apply (applyTemplate_skipRows_drops Scenario.host Scenario.quotesCsv
           (Scenario.quotesTemplate csv 0) 1).
  - reflexivity.
  - cbn. lia.
Defined.

(** X11 on the first sheet of the sample workbook. *)
Lemma parseExcel_header_is_a_skipped_row_witness :
  applyTemplate Scenario.host (wholeGrid Scenario.firstGrid "quotes.xlsx")
    (withSkipRows Scenario.sheetTemplate 1)
  = mapResult (shiftRows 1)
      (applyTemplate Scenario.host
         (parseExcel Scenario.workbook "quotes.xlsx")
         (withSkipRows Scenario.sheetTemplate 0)).
Proof.
  apply (parseExcel_header_is_a_skipped_row Scenario.host "Quotes"
           Scenario.firstGrid [("Notes", [[JS.Str "draft"]])] "quotes.xlsx"
           Scenario.sheetTemplate).
  discriminate.
Defined.

End SkipRowsWitness.

(** ** Which rows are mapped *)

Section MappedRows.

Import FileParser Column TemplateMappingData.

Context (host : Host).

Lemma mapColumns_hasError ty i sourceRow cols : forall st st',
  mapColumns host ty i (Some sourceRow) cols st = Ok st' ->
  hasError st' = hasError st || negb (rowOk host ty cols sourceRow).
Proof.
  induction cols as [|c cols IH]; intros st st' E.
  - injection E as <-. cbn. now rewrite orb_false_r.
  - cbn [mapColumns] in E.
    destruct (mapColumn host ty i (Some sourceRow) st c) as [st1|e] eqn:E1;
      [|discriminate].
    cbn [bind] in E. rewrite (IH _ _ E).
    unfold rowOk. cbn [forallb]. fold (rowOk host ty cols sourceRow).
    assert (H1 : hasError st1
                 = hasError st || negb (fieldOk host ty sourceRow c)).
    { revert E1. unfold mapColumn, fieldOk, fieldValue.
      destruct (required c && JS.isNullish (sourceValue host ty sourceRow c));
        destruct (convertDataType host (sourceValue host ty sourceRow c)
                    (dataType c));
        intros E1; injection E1 as <-; cbn;
        rewrite ?orb_true_r, ?orb_false_r; reflexivity. }
    rewrite H1, negb_andb. now rewrite orb_assoc.
Qed.

Lemma rows_at (l : list Row) : forall before,
  Forall2 (fun i row => rowAt (before ++ l) i = Some row)
    (map Z.of_nat (seq (List.length before) (List.length l))) l.
Proof.
  induction l as [|x l IH]; intros before; [constructor|].
  cbn [List.length seq map]. constructor.
  - unfold rowAt. destruct (Z.ltb_spec (Z.of_nat (List.length before)) 0);
      [lia|].
    rewrite Nat2Z.id. now rewrite nth_error_app2, Nat.sub_diag by lia.
  - specialize (IH (before ++ [x])).
    rewrite <- app_assoc, length_app in IH. cbn [app List.length] in IH.
    now rewrite Nat.add_1_r in IH.
Qed.

Lemma indexes_nat (s : nat) len :
  indexes (Z.of_nat s) len
  = map Z.of_nat (seq s (Z.to_nat (len - Z.of_nat s))).
Proof.
  unfold indexes. generalize (Z.to_nat (len - Z.of_nat s)) as m. intros m.
  assert (H : forall start,
    map (fun k => Z.of_nat s + Z.of_nat k) (seq start m)
    = map Z.of_nat (seq (s + start) m)).
  { induction m as [|m IH]; intros start; [reflexivity|].
    cbn [seq map]. f_equal; [lia|].
    rewrite IH. now rewrite Nat.add_succ_r. }
  rewrite (H 0%nat). now rewrite Nat.add_0_r.
Qed.

(** From [skipRows] on, with [skipRows] not negative, the indexes of the
    loop are the positions of the rows that are left. *)
Lemma rows_at_indexes rows skip :
  0 <= skip ->
  Forall2 (fun i row => rowAt rows i = Some row)
    (indexes skip (Z.of_nat (List.length rows)))
    (skipn (Z.to_nat skip) rows).
Proof.
  intros Hs. rewrite <- (Z2Nat.id skip) at 1 by exact Hs.
  rewrite indexes_nat.
  destruct (Nat.le_gt_cases (Z.to_nat skip) (List.length rows)) as [Hle|Hgt].
  - pose proof (rows_at (skipn (Z.to_nat skip) rows)
                  (firstn (Z.to_nat skip) rows)) as H.
    rewrite firstn_skipn, length_firstn, length_skipn in H.
    replace (Nat.min (Z.to_nat skip) (List.length rows)) with (Z.to_nat skip)
      in H by lia.
    replace (Z.to_nat (Z.of_nat (List.length rows)
                       - Z.of_nat (Z.to_nat skip)))
      with (List.length rows - Z.to_nat skip)%nat by lia.
    exact H.
  - rewrite skipn_all2 by lia.
    replace (Z.to_nat (Z.of_nat (List.length rows)
                       - Z.of_nat (Z.to_nat skip))) with O by lia.
    constructor.
Qed.

Lemma outcomes_of_rows fileData template idxs outcomes :
  Forall2 (fun i st => rowOutcome host fileData template i = Ok st)
    idxs outcomes ->
  forall sourceRows,
    Forall2 (fun i row => rowAt (ParsedFileData.rows fileData) i = Some row)
      idxs sourceRows ->
    Forall2
      (fun row st =>
         failed st
         = negb (rowOk host (Metadata.type (ParsedFileData.metadata fileData))
                   (columns template) row))
      sourceRows outcomes.
Proof.
  induction 1 as [|i st idxs outcomes Hi _ IH]; intros sourceRows HR;
    inversion HR as [|? row ? rest Hrow HR']; subst; constructor; auto.
  pose proof (rowOutcome_inv host _ _ _ _ Hi) as (H1 & _ & _).
  unfold rowOutcome in Hi. rewrite Hrow in Hi.
  apply mapColumns_hasError in Hi. cbn in Hi. rewrite <- Hi.
  unfold failed. destruct (errors st), (hasError st); try reflexivity.
  - exfalso. now apply H1.
  - assert (false = true) by (apply H1; discriminate). discriminate.
Qed.

Lemma mapped_count sourceRows outcomes (ok : Row -> bool) :
  Forall2 (fun row st => failed st = negb (ok row)) sourceRows outcomes ->
  List.length (flat_map contribution outcomes)
  = List.length (filter ok sourceRows)
  /\ (flat_map errors outcomes = [] <-> forallb ok sourceRows = true).
Proof.
  induction 1 as [|row st sourceRows outcomes Hf _ [IH1 IH2]];
    [split; [reflexivity|split; reflexivity]|].
  cbn [flat_map filter forallb]. rewrite length_app, IH1.
  unfold failed in Hf. unfold contribution at 1.
  destruct (errors st) as [|e0 l], (ok row); cbn in Hf; try discriminate.
  - cbn. split; [reflexivity|]. now rewrite IH2.
  - cbn. split; [reflexivity|]. split; discriminate.
Qed.

(** X6.  On the tabular path with [skipRows] not negative, [mappedRows]
    counts exactly the rows from [skipRows] on in which every required
    column has a value and every column's value coerces to its type; and
    [errors] is empty exactly when all those rows are such. *)
Theorem mappedRows_counts_good_rows fileData template r :
  applyTemplate host fileData template = Ok r ->
  isPdfPath fileData template = false ->
  0 <= skipRows template ->
  MappingResult.mappedRows r
  = Z.of_nat
      (List.length
         (filter
            (rowOk host (Metadata.type (ParsedFileData.metadata fileData))
               (columns template))
            (skipn (Z.to_nat (skipRows template))
               (ParsedFileData.rows fileData))))
  /\ (MappingResult.errors r = [] <->
      forallb
        (rowOk host (Metadata.type (ParsedFileData.metadata fileData))
           (columns template))
        (skipn (Z.to_nat (skipRows template))
           (ParsedFileData.rows fileData)) = true).
Proof.
  intros E Hpath Hskip. apply applyTemplate_Ok in E. rewrite Hpath in E.
  apply applyTabular_outcomes in E. cbv zeta in E.
  destruct E as (outcomes & HF & ->).
  cbn [MappingResult.mappedRows MappingResult.errors].
  pose proof (outcomes_of_rows _ _ _ _ HF _
                (rows_at_indexes (ParsedFileData.rows fileData) _ Hskip))
    as Hrows.
  destruct (mapped_count _ _ _ Hrows) as [Hc He].
  rewrite Hc. split; [reflexivity|exact He].
Qed.

End MappedRows.

Section MappedRowsWitness.

Import FileParser.

(** X6 on [quotesCsv]: one of its two rows is good. *)
Lemma mappedRows_counts_good_rows_witness :
  MappingResult.mappedRows Scenario.quotesResult
  = Z.of_nat
      (List.length
         (filter (rowOk Scenario.host csv Scenario.quotesColumns)
            (ParsedFileData.rows Scenario.quotesCsv)))
  /\ (MappingResult.errors Scenario.quotesResult = [] <->
      forallb (rowOk Scenario.host csv Scenario.quotesColumns)
        (ParsedFileData.rows Scenario.quotesCsv) = true).
Proof.
  apply (mappedRows_counts_good_rows Scenario.host Scenario.quotesCsv
           (Scenario.quotesTemplate csv 0) Scenario.quotesResult).
  - reflexivity.
  - reflexivity.
  - cbn. lia.
Defined.

End MappedRowsWitness.

(** ** The errors and fields of the free-text path *)

Section PdfPath.

Import FileParser Column TemplateMappingData.

Context (host : Host).

Lemma pdfInv_more template done c st :
  pdfInv template done st -> pdfInv template (done ++ [c]) st.
Proof.
  intros (H1 & H2 & H3). split; [|split].
  - eapply Forall_impl; [|exact H1]. cbn.
    intros e (Hr & c0 & Hin & Hrest). split; [exact Hr|].
    exists c0. split; [apply in_or_app; now left|exact Hrest].
  - rewrite filter_app, length_app. lia.
  - intros k Hk. destruct (H3 k Hk) as (c0 & p & Hin & Hrest).
    exists c0, p. split; [apply in_or_app; now left|exact Hrest].
Qed.

Lemma pdfInv_error template done c mappedRow errs msg :
  required c = true ->
  msg = noPattern c \/ msg = notFound c ->
  pdfInv template done (mappedRow, errs) ->
  pdfInv template (done ++ [c])
    (mappedRow, push errs {| RowError.row := 1; RowError.message := msg |}).
Proof.
  intros Hreq Hmsg Hinv. pose proof Hinv as (_ & H2 & _).
  apply (pdfInv_more _ _ c) in Hinv.
  destruct Hinv as (H1 & _ & H3). split; [|split]; cbn [fst snd] in *.
  - apply Forall_app. split; [exact H1|]. constructor; [|constructor].
    cbn. split; [reflexivity|]. exists c.
    split; [apply in_or_app; right; now left|]. auto.
  - unfold push. rewrite length_app, filter_app, length_app.
    cbn [filter]. rewrite Hreq. cbn [List.length]. lia.
  - exact H3.
Qed.

Lemma applyPattern_inv template pdfContent done st mapping st' :
  applyPattern host template pdfContent st mapping = Ok st' ->
  pdfInv template done st ->
  pdfInv template (done ++ [mapping]) st'.
Proof.
  destruct st as [mappedRow errs]. unfold applyPattern.
  fold (patternOf template mapping).
  intros E Hinv.
  assert (Hskip : forall msg,
    msg = noPattern mapping \/ msg = notFound mapping ->
    pdfInv template (done ++ [mapping])
      (mappedRow,
       if required mapping
       then push errs {| RowError.row := 1; RowError.message := msg |}
       else errs)).
  { intros msg Hmsg. destruct (required mapping) eqn:Hreq.
    - now apply pdfInv_error.
    - now apply pdfInv_more. }
  destruct (patternOf template mapping) as [[|a p]|] eqn:Ep.
  - injection E as <-. apply Hskip. now left.
  - destruct (RegExp_compiles host (String a p)); [|discriminate].
    cbn [negb] in E.
    destruct pdfContent as [| | | |text|o]; try discriminate.
    destruct (RegExp_match host (String a p) text) as [[[|ch g]|]|].
    + injection E as <-. apply Hskip. now right.
    + destruct (convertDataType host (JS.Str (String ch g))
                  (dataType mapping)) as [v|e]; [|discriminate].
      cbn [bind] in E. injection E as <-.
      apply (pdfInv_more _ _ mapping) in Hinv.
      destruct Hinv as (H1 & H2 & H3). split; [exact H1|].
      split; [exact H2|]. cbn [fst]. intros k Hk.
      destruct (assign_keys _ _ _ _ Hk) as [Hin|[-> _]]; [now apply H3|].
      exists mapping, (String a p).
      split; [apply in_or_app; right; now left|].
      split; [reflexivity|]. split; [exact Ep|discriminate].
    + injection E as <-. apply Hskip. now right.
    + injection E as <-. apply Hskip. now right.
  - injection E as <-. apply Hskip. now left.
Qed.

Lemma applyPatterns_inv template pdfContent cols : forall done st st',
  applyPatterns host template pdfContent cols st = Ok st' ->
  pdfInv template done st ->
  pdfInv template (done ++ cols) st'.
Proof.
  induction cols as [|c cols IH]; intros done st st' E Hinv.
  - injection E as <-. now rewrite app_nil_r.
  - cbn [applyPatterns] in E.
    destruct (applyPattern host template pdfContent st c) as [st1|e] eqn:E1;
      [|discriminate].
    cbn [bind] in E.
    replace (done ++ c :: cols) with ((done ++ [c]) ++ cols)
      by now rewrite <- app_assoc.
    eapply IH; [exact E|]. eapply applyPattern_inv; eauto.
Qed.

(** X7.  On the free-text path only required columns give errors: every
    entry of [errors] is for row 1 and says of a required column that its
    pattern is not defined or that its value was not found, [errors] has no
    more entries than the template has required columns, and every field of
    the mapped record is a column whose pattern is defined and not
    empty. *)
Theorem pdf_errors_are_required_fields fileData template r :
  applyTemplate host fileData template = Ok r ->
  isPdfPath fileData template = true ->
  Forall
    (fun e =>
       RowError.row e = 1
       /\ exists c,
            In c (columns template) /\ required c = true
            /\ (RowError.message e = noPattern c
                \/ RowError.message e = notFound c))
    (MappingResult.errors r)
  /\ (List.length (MappingResult.errors r)
      <= List.length (filter required (columns template)))%nat
  /\ Forall
       (fun record =>
          forall k, In k (map fst record) ->
          exists c p,
            In c (columns template) /\ name c = k
            /\ patternOf template c = Some p /\ p <> "")
       (MappingResult.rows r).
Proof.
  intros E Hpath. apply applyTemplate_Ok in E. rewrite Hpath in E.
  unfold applyPdfTemplate in E.
  destruct (applyPatterns host template _ (columns template)
              (emptyObject, []))
    as [[mappedRow errs]|e] eqn:Ep; [|discriminate].
  cbn [bind] in E. injection E as <-.
  cbn [MappingResult.errors MappingResult.rows].
  assert (H0 : pdfInv template [] (emptyObject, @nil RowError.t)).
  { split; [constructor|]. split; [cbn; lia|]. intros k []. }
  pose proof (applyPatterns_inv _ _ _ _ _ _ Ep H0) as (H1 & H2 & H3).
  cbn [app fst snd] in *. split; [exact H1|]. split; [exact H2|].
  destruct (0 <? Z.of_nat (List.length errs)); constructor;
    [exact H3|constructor].
Qed.

End PdfPath.

Section PdfPathWitness.

Import FileParser.

(** X7 on the invoice text: no error, and the one field, total, has a
    pattern. *)
Lemma pdf_errors_are_required_fields_witness :
  exists r,
    applyTemplate Scenario.host Scenario.invoicePdf Scenario.invoiceTemplate
      = Ok r
    /\ (List.length (MappingResult.errors r) <= 1)%nat
    /\ Forall
         (fun record =>
            forall k, In k (map fst record) ->
            exists c p,
              In c (TemplateMappingData.columns Scenario.invoiceTemplate)
              /\ Column.name c = k
              /\ patternOf Scenario.invoiceTemplate c = Some p /\ p <> "")
         (MappingResult.rows r).
Proof.
  eexists. split; [reflexivity|].
  apply (pdf_errors_are_required_fields Scenario.host Scenario.invoicePdf
           Scenario.invoiceTemplate); reflexivity.
Defined.

End PdfPathWitness.

(** ** From an extracted PDF to a result *)

Section PdfPipeline.

Import FileParser Column TemplateMappingData.

Context (host : Host).

Lemma applyPatterns_returns template text cols :
  (forall c p, In c cols -> patternOf template c = Some p ->
               RegExp_compiles host p = true) ->
  (forall c, In c cols -> dataType c <> "number" /\ dataType c <> "date") ->
  forall st,
    exists st', applyPatterns host template (JS.Str text) cols st = Ok st'.
Proof.
  induction cols as [|c cols IH]; intros Hcomp Hty st; [now exists st|].
  cbn [applyPatterns].
  assert (E : exists st1,
            applyPattern host template (JS.Str text) st c = Ok st1).
  { destruct st as [mappedRow errs]. unfold applyPattern.
    fold (patternOf template c).
    destruct (patternOf template c) as [[|a p]|] eqn:Ep; eauto.
    rewrite (Hcomp c (String a p)) by (auto; now left). cbn [negb].
    destruct (RegExp_match host (String a p) text) as [[[|ch g]|]|]; eauto.
    unfold convertDataType. cbn [JS.isNullish].
    destruct (Hty c ltac:(now left)) as [Hn Hd].
    destruct (String.eqb_spec (dataType c) "number"); [contradiction|].
    destruct (String.eqb_spec (dataType c) "date"); [contradiction|].
    cbn [bind]. eauto. }
  destruct E as [st1 ->]. cbn [bind].
  apply IH; intros; [eapply Hcomp|apply Hty]; eauto; now right.
Qed.

(** X8.  A document made by [parsePdf] never makes [applyTemplate] fail on
    its own: with a pdf template whose patterns are valid regular
    expressions and whose fields are neither numbers nor dates,
    [applyTemplate] returns a result, for the single row of the text. *)
Theorem parsePdf_applyTemplate_returns pages filename template :
  fileType template = pdf ->
  (forall c p, In c (columns template) -> patternOf template c = Some p ->
               RegExp_compiles host p = true) ->
  (forall c, In c (columns template) ->
             dataType c <> "number" /\ dataType c <> "date") ->
  exists r,
    applyTemplate host (parsePdf pages filename) template = Ok r
    /\ MappingResult.totalRows r = 1
    /\ MappingResult.headers r = map name (columns template).
Proof.
  intros Hft Hcomp Hty. unfold applyTemplate, isPdfPath. rewrite Hft.
  cbn [parsePdf ParsedFileData.metadata Metadata.type FileType_eqb andb].
  unfold applyPdfTemplate.
  cbn [parsePdf ParsedFileData.rows getNamed get getProp String.eqb
       Ascii.eqb Bool.eqb].
  assert (Hc : JS.orElse (JS.Str (textContent pages)) (JS.Str "")
               = JS.Str (textContent pages)).
  { unfold JS.orElse, JS.truthy.
    destruct (String.eqb_spec (textContent pages) "") as [->|]; reflexivity. }
  cbn in Hc |- *. rewrite Hc.
  destruct (applyPatterns_returns template (textContent pages)
              (columns template) Hcomp Hty (emptyObject, []))
    as [[mappedRow errs] ->].
  cbn [bind]. eexists. split; [reflexivity|]. split; reflexivity.
Qed.

End PdfPipeline.

Section PdfPipelineWitness.

Import FileParser.

Example textContent_pages :
  textContent Sample.pages
  = ("Invoice 17" ++ String (ascii_of_nat 10) "Ref: Q-88")%string.
Proof. reflexivity. Qed.

(** X8 on the two sample pages and a template with one text field. *)
Lemma parsePdf_applyTemplate_returns_witness :
  exists r,
    applyTemplate Scenario.host (parsePdf Sample.pages "quotes.pdf")
      Sample.refTemplate = Ok r
    /\ MappingResult.totalRows r = 1
    /\ MappingResult.headers r = ["ref"].
Proof.
  apply (parsePdf_applyTemplate_returns Scenario.host Sample.pages
           "quotes.pdf" Sample.refTemplate).
  - reflexivity.
  - intros c p _ _. reflexivity.
  - intros c [<-|[]]. split; discriminate.
Defined.

End PdfPipelineWitness.

(** ** parseFile *)

Section ParseFile.

Import FileParser.

Context (host : Host) (files : FileSystem).

Lemma prefix_shorter a b s :
  String.prefix (a ++ b) s = true -> String.prefix a s = true.
Proof.
  revert s. induction a as [|c a IH]; intros s H; [now destruct s|].
  destruct s as [|c' s]; [discriminate|].
  cbn in *. destruct (ascii_dec c c'); [now apply IH|discriminate].
Qed.

(** A string that includes a text includes its beginnings. *)
Lemma includes_shorter s a b :
  includes s (a ++ b) = true -> includes s a = true.
Proof.
  induction s as [|c s IH]; cbn [includes]; intros H;
    apply orb_true_iff in H; destruct H as [H|H];
    try discriminate;
    apply orb_true_iff; [left|left|right]; eauto using prefix_shorter.
Qed.

(** The test of [parseFile] for a spreadsheet; the test for xlsx adds
    nothing to the one for xls. *)
Lemma spreadsheet_test fileType :
  includes fileType "excel" || includes fileType "spreadsheet"
  || includes fileType "xlsx" || includes fileType "xls"
  = includes fileType "excel" || includes fileType "spreadsheet"
    || includes fileType "xls".
Proof.
  destruct (includes fileType "xlsx") eqn:E.
  - rewrite (includes_shorter fileType "xls" "x" E).
    now rewrite !orb_true_r.
  - now rewrite orb_false_r.
Qed.

(** X9.  A document that [parseFile] returns is consistent: the file
    exists, [filename] is its base name, [totalRows] is the number of rows,
    the rows have the shape of the document's kind (arrays for a
    spreadsheet, records otherwise), and the kind follows the declared
    type: spreadsheet if it includes excel, spreadsheet or xls; otherwise
    delimited text if it includes csv; otherwise PDF, and then it includes
    pdf. *)
Theorem parseFile_result filePath fileType fileData :
  parseFile host files filePath fileType = Ok fileData ->
  existsSync files filePath = true
  /\ Metadata.filename (ParsedFileData.metadata fileData)
     = basename files filePath
  /\ Metadata.totalRows (ParsedFileData.metadata fileData)
     = Z.of_nat (List.length (ParsedFileData.rows fileData))
  /\ rowsOfKind fileData = true
  /\ match Metadata.type (ParsedFileData.metadata fileData) with
     | excel =>
         includes fileType "excel" || includes fileType "spreadsheet"
         || includes fileType "xls" = true
     | csv =>
         includes fileType "excel" || includes fileType "spreadsheet"
         || includes fileType "xls" = false
         /\ includes fileType "csv" = true
     | pdf =>
         includes fileType "excel" || includes fileType "spreadsheet"
         || includes fileType "xls" = false
         /\ includes fileType "csv" = false
         /\ includes fileType "pdf" = true
     end.
Proof.
  unfold parseFile. rewrite spreadsheet_test.
  destruct (existsSync files filePath); cbn [negb]; [|discriminate].
  destruct (includes fileType "excel" || includes fileType "spreadsheet"
            || includes fileType "xls") eqn:Ex.
  - destruct (readWorkbook files filePath) as [workbook|e]; [|discriminate].
    cbn [bind]. intros E. injection E as <-.
    split; [reflexivity|]. split; [reflexivity|].
    split; [cbn; now rewrite length_map|]. split; [|reflexivity].
    unfold rowsOfKind. cbn. apply forallb_forall.
    intros r Hr. apply in_map_iff in Hr. now destruct Hr as (cells & <- & _).
  - destruct (includes fileType "csv") eqn:Ec.
    + destruct (readRecords files filePath) as [records|e]; [|discriminate].
      cbn [bind]. intros E. injection E as <-.
      split; [reflexivity|]. split; [reflexivity|].
      split; [cbn; now rewrite length_map|]. split; [|split; reflexivity].
      unfold rowsOfKind. cbn. apply forallb_forall.
      intros r Hr. apply in_map_iff in Hr.
      now destruct Hr as (fields & <- & _).
    + destruct (includes fileType "pdf") eqn:Ep; [|discriminate].
      destruct (extractPages files filePath) as [pages|e]; [|discriminate].
      cbn [bind]. intros E. injection E as <-.
      split; [reflexivity|]. split; [reflexivity|].
      split; [reflexivity|]. split; [reflexivity|].
      repeat split.
Qed.

(** X10.  Whatever goes wrong in [parseFile], the caller gets an [Error]
    whose message begins with the words for a parsing error, also when a
    reader of the libraries threw; a file that does not exist is reported
    as such whatever type was declared, and a type that includes none of
    the known words is reported as not supported. *)
Theorem parseFile_errors filePath fileType :
  (forall e, parseFile host files filePath fileType = Throw e ->
     exists m, e = Error ("파일 파싱 오류: " ++ m)%string)
  /\ (existsSync files filePath = false ->
      parseFile host files filePath fileType
      = Throw (Error ("파일 파싱 오류: 파일을 찾을 수 없습니다: "
                      ++ filePath)%string))
  /\ (existsSync files filePath = true ->
      includes fileType "excel" || includes fileType "spreadsheet"
      || includes fileType "xls" || includes fileType "csv"
      || includes fileType "pdf" = false ->
      parseFile host files filePath fileType
      = Throw (Error ("파일 파싱 오류: 지원하지 않는 파일 형식입니다: "
                      ++ fileType)%string)).
Proof.
  split; [|split].
  - unfold parseFile. intros e.
    destruct (if negb (existsSync files filePath) then _ else _) as [fd|e0];
      [discriminate|].
    intros E. injection E as <-. now exists (message host e0).
  - intros Hex. unfold parseFile. rewrite Hex. reflexivity.
  - intros Hex Hno. unfold parseFile. rewrite Hex, spreadsheet_test.
    cbn [negb].
    apply orb_false_iff in Hno. destruct Hno as [Hno Hp].
    apply orb_false_iff in Hno. destruct Hno as [Hx Hc].
    rewrite Hx, Hc, Hp. reflexivity.
Qed.

End ParseFile.

Section ParseFileWitness.

Import FileParser.

(** X9 on the sample directory: the MIME type of a workbook makes a
    spreadsheet of two data rows. *)
Lemma parseFile_result_witness :
  existsSync Sample.files "uploads/quotes.xlsx" = true
  /\ Metadata.filename
       (ParsedFileData.metadata
          (parseExcel Scenario.workbook "quotes.xlsx"))
     = "quotes.xlsx"
  /\ Metadata.totalRows
       (ParsedFileData.metadata
          (parseExcel Scenario.workbook "quotes.xlsx"))
     = 2
  /\ rowsOfKind (parseExcel Scenario.workbook "quotes.xlsx") = true
  /\ includes "application/vnd.ms-excel" "excel"
     || includes "application/vnd.ms-excel" "spreadsheet"
     || includes "application/vnd.ms-excel" "xls" = true.
Proof.
  exact (parseFile_result Scenario.host Sample.files "uploads/quotes.xlsx"
           "application/vnd.ms-excel"
           (parseExcel Scenario.workbook "quotes.xlsx") eq_refl).
Defined.

(** X10 on the sample directory: a file that is not there, and a type
    that is not known. *)
Lemma parseFile_errors_witness :
  parseFile Scenario.host Sample.files "uploads/none.csv" "text/csv"
    = Throw (Error "파일 파싱 오류: 파일을 찾을 수 없습니다: uploads/none.csv")
  /\ parseFile Scenario.host Sample.files "uploads/quotes.csv" "text/plain"
     = Throw (Error "파일 파싱 오류: 지원하지 않는 파일 형식입니다: text/plain").
Proof.
  split.
  - apply (parseFile_errors Scenario.host Sample.files "uploads/none.csv"
             "text/csv"). reflexivity.
  - apply (parseFile_errors Scenario.host Sample.files "uploads/quotes.csv"
             "text/plain"); reflexivity.
Defined.

End ParseFileWitness.

(** ** applyTemplateMapping *)

Section TemplateMapping.

Import FileProcessor.

(** A turn of the loop leaves the fields of other names as they are. *)
Lemma mapField_other data result field mapInfo k :
  field <> k ->
  getProp (own (mapField data result (field, mapInfo))) k
  = getProp (own result) k.
Proof.
  intros Hne. unfold mapField.
  destruct mapInfo as [row col|sel| |]; auto using getProp_assign_other.
  - destruct (cell data row col); auto using getProp_assign_other.
  - destruct data; auto using getProp_assign_other.
Qed.

Lemma mapField_nullProto data result field mapInfo :
  field <> "__proto__" ->
  nullProto (mapField data result (field, mapInfo)) = nullProto result.
Proof.
  intros Hne. unfold mapField.
  destruct mapInfo as [row col|sel| |]; auto using nullProto_assign.
  - destruct (cell data row col); auto using nullProto_assign.
  - destruct data; auto using nullProto_assign.
Qed.

Lemma mapField_keys data result field mapInfo k :
  In k (map fst (own (mapField data result (field, mapInfo)))) ->
  In k (map fst (own result))
  \/ (k = field /\ (field <> "__proto__" \/ nullProto result = true)).
Proof.
  unfold mapField.
  destruct mapInfo as [row col|sel| |]; eauto using assign_keys.
  - destruct (cell data row col); eauto using assign_keys.
  - destruct data; eauto using assign_keys.
Qed.

(** The turn of an entry sets its field, when it assigns at all. *)
Lemma mapField_own data result field mapInfo :
  field <> "__proto__" ->
  getProp (own result) field = None ->
  getProp (own (mapField data result (field, mapInfo))) field
  = stored (mappedValue data mapInfo).
Proof.
  intros Hne Hfresh. unfold mapField, mappedValue, stored.
  destruct mapInfo as [row col|sel| |];
    auto using getProp_assign_same.
  - destruct (cell data row col); auto using getProp_assign_same.
  - destruct data; auto using getProp_assign_same.
Qed.

Lemma fold_mapField data entries : forall result,
  NoDup (map fst entries) ->
  (forall f, In f (map fst entries) -> getProp (own result) f = None) ->
  (nullProto result = true -> ~ In "__proto__" (map fst entries)) ->
  (forall field mapInfo,
     In (field, mapInfo) entries -> field <> "__proto__" ->
     getProp (own (fold_left (mapField data) entries result)) field
     = stored (mappedValue data mapInfo))
  /\ (forall k,
        In k (map fst (own (fold_left (mapField data) entries result))) ->
        In k (map fst (own result))
        \/ (In k (map fst entries) /\ k <> "__proto__"))
  /\ (forall k,
        ~ In k (map fst entries) ->
        getProp (own (fold_left (mapField data) entries result)) k
        = getProp (own result) k).
Proof.
  induction entries as [|[f0 m0] entries IH]; intros result Hnd Hfresh Hproto.
  - split; [intros ? ? []|]. split; auto.
  - cbn [map fst] in Hnd, Hfresh, Hproto.
    inversion Hnd as [|? ? Hni Hnd']; subst. cbn [fold_left].
    destruct (IH (mapField data result (f0, m0)) Hnd') as (IH1 & IH2 & IH3).
    { intros f Hf. rewrite mapField_other.
      - apply Hfresh. now right.
      - intros ->. contradiction. }
    { intros Hp Hin.
      destruct (string_dec f0 "__proto__") as [->|Hn]; [contradiction|].
      rewrite mapField_nullProto in Hp by exact Hn.
      apply (Hproto Hp). now right. }
    split; [|split].
    + intros field mapInfo [E|Hin] Hn; [|now apply IH1].
      injection E as -> ->. rewrite IH3 by exact Hni.
      apply mapField_own; [exact Hn|]. apply Hfresh. now left.
    + intros k Hk. destruct (IH2 k Hk) as [Hin|[Hin Hn]].
      * destruct (mapField_keys _ _ _ _ _ Hin) as [Ho|[-> Hc]]; [now left|].
        right. split; [now left|].
        destruct Hc as [Hc|Hc]; [exact Hc|].
        intros En. apply (Hproto Hc). left. exact En.
      * right. split; [now right|exact Hn].
    + intros k Hk. rewrite IH3 by (intros Hin; apply Hk; now right).
      apply mapField_other. intros En. apply Hk. now left.
Qed.

(** X12.  [applyTemplateMapping] maps every field on its own.  For a
    mapping with distinct fields and for every field but one named
    [__proto__], the result holds, for an entry with [row] and [col], the
    cell [data[row][col]], and no field at all when the cell is outside the
    data or undefined; the empty string for a selector on a text, and no
    field for a selector on a sheet; [null] for an entry that is no object.
    The result has no field that the mapping lacks, and none named
    [__proto__]. *)
Theorem applyTemplateMapping_fields data entries :
  NoDup (map fst entries) ->
  (forall field mapInfo,
     In (field, mapInfo) entries -> field <> "__proto__" ->
     getProp (own (applyTemplateMapping data entries)) field
     = stored (mappedValue data mapInfo))
  /\ (forall k,
       In k (map fst (own (applyTemplateMapping data entries))) ->
       In k (map fst entries) /\ k <> "__proto__").
Proof.
  intros Hnd. unfold applyTemplateMapping.
  destruct (fold_mapField data entries emptyObject Hnd) as (H1 & H2 & _);
    [reflexivity|discriminate|].
  split; [exact H1|].
  intros k Hk. destruct (H2 k Hk) as [[]|H]. exact H.
Qed.

End TemplateMapping.

Section TemplateMappingWitness.

Import FileProcessor.

(** X12 on the grid of the sample sheet: the cells of its second row are
    found, row 7 is outside, and a selector finds nothing on a sheet. *)
Lemma applyTemplateMapping_fields_witness :
  own (applyTemplateMapping (Sheet Scenario.firstGrid) MappingSample.entries)
    = [ ("quotationId", JS.Str "bolt");
        ("quantity", JS.Number (JS.Dec false 12 0));
        ("solution", JS.Null) ]
  /\ (forall field mapInfo,
       In (field, mapInfo) MappingSample.entries -> field <> "__proto__" ->
       getProp
         (own (applyTemplateMapping (Sheet Scenario.firstGrid)
                 MappingSample.entries)) field
       = stored (mappedValue (Sheet Scenario.firstGrid) mapInfo)).
Proof.
  split; [reflexivity|].
  apply (applyTemplateMapping_fields (Sheet Scenario.firstGrid)
           MappingSample.entries).
  repeat constructor; cbn; intuition discriminate.
Defined.

End TemplateMappingWitness.

(** ** Column names by their length *)

Section ColumnBands.

Import FileParser.

(** X13.  Among the names of up to eleven letters, for which the index is
    exact, the names of [n] letters are exactly the columns with indexes
    from [1 + 26 + ... + 26^(n-1) - 1] to [26 + ... + 26^n - 1]: one letter
    for 0 to 25, two letters for 26 to 701, three for 702 to 18277. *)
Theorem excelColToIndex_length_bands s n :
  isColumnName s = true ->
  (String.length s <= 11)%nat ->
  exists index,
    excelColToIndex s = JS.Finite index
    /\ (String.length s = n <-> ones n <= index + 1 <= 26 * ones n).
Proof.
  intros Hs Hlen. apply isColumnName_codes in Hs. destruct Hs as [_ Hu].
  exists (colValue 0 (JS.codes s) - 1).
  split; [now apply excelColToIndex_exact|].
  pose proof (colValue_bounds _ Hu) as B. rewrite codes_length in B.
  split.
  - intros <-. lia.
  - intros Hn.
    destruct (Nat.lt_trichotomy (String.length s) n) as [Hlt|[E|Hgt]];
      [|exact E|].
    + pose proof (ones_lt _ _ Hlt). lia.
    + pose proof (ones_lt _ _ Hgt). lia.
Qed.

Lemma excelColToIndex_length_bands_witness :
  (exists index,
     excelColToIndex "XFD" = JS.Finite index
     /\ (String.length "XFD" = 3%nat <->
         ones 3 <= index + 1 <= 26 * ones 3))
  /\ ones 3 - 1 = 702 /\ 26 * ones 3 - 1 = 18277
  /\ excelColToIndex "XFD" = JS.Finite 16383.
Proof.
  split; [|repeat split].
  apply (excelColToIndex_length_bands "XFD" 3); [reflexivity|cbn; lia].
Defined.

End ColumnBands.

(** ** A negative skipRows *)

Section NegativeSkip.

Import FileParser Column TemplateMappingData.

(** X14.  A negative [skipRows] is not clamped: on the tabular path, with
    at least one column in the template, the loop starts before the first
    row, reads a field of [undefined], and [applyTemplate] throws the
    runtime's error under its own prefix, whatever the file holds. *)
Theorem applyTemplate_negative_skipRows_throws host fileData template :
  isPdfPath fileData template = false ->
  skipRows template < 0 ->
  columns template <> [] ->
  applyTemplate host fileData template
  = Throw (Error ("템플릿 적용 오류: "
                  ++ runtime_message host (TypeError "sourceRow"))%string).
Proof.
  intros Hpath Hneg Hcols.
  unfold applyTemplate, applyTabular. rewrite Hpath, skipRows_or_0.
  unfold indexes.
  destruct (Z.to_nat (Z.of_nat (List.length (ParsedFileData.rows fileData))
                      - skipRows template)) as [|n] eqn:En; [lia|].
  cbn [seq map mapRows]. unfold mapRow at 1, rowAt.
  replace (skipRows template + Z.of_nat 0) with (skipRows template) by lia.
  destruct (Z.ltb_spec (skipRows template) 0); [|lia].
  destruct (columns template) as [|c cols]; [contradiction|].
  reflexivity.
Qed.

Lemma applyTemplate_negative_skipRows_throws_witness :
  applyTemplate Scenario.host Scenario.quotesCsv
    (Scenario.quotesTemplate csv (-1))
  = Throw (Error ("템플릿 적용 오류: "
                  ++ runtime_message Scenario.host (TypeError "sourceRow"))%string).
Proof.
  apply (applyTemplate_negative_skipRows_throws Scenario.host
           Scenario.quotesCsv (Scenario.quotesTemplate csv (-1))).
  - reflexivity.
  - reflexivity.
  - discriminate.
Defined.

End NegativeSkip.
